(** * The Containerized workload controller

    A shallow embedding of
    [pkg/controller/v1alpha1/containerized/containerized_controller.go]:
    the two renderers ([renderDeployment], [renderService]) and the
    reconcile cycle ([Reconcile]), followed by the properties the
    specification states about them.

    Conventions.
    - An [int32] is a [Z]; arithmetic on it is wrapped with [wrap32].
    - A Go slice is an [option (list A)]: [None] is the nil slice,
      [Some []] an allocated empty one.  [range] and [append] behave as
      in Go on both.
    - A Go [map[string]string] used for labels and annotations is a
      [gmap string string]; the nil map and the empty map are not told
      apart (the code only ever reads them).
    - The cluster-state store, the event recorder and the replies of the
      API server are explicit: [Reconcile] is a function from a [World.t]
      to a result and a [World.t]. *)

From stdpp Require Import base option list gmap strings.
From Stdlib Require Import ZArith Ascii.

Local Open Scope Z_scope.

(** ** Machine integers and slices *)

Definition int32 := Z.

Definition wrap32 (z : Z) : int32 := (z + 2 ^ 31) `mod` 2 ^ 32 - 2 ^ 31.

Definition in_int32 (z : Z) : Prop := - 2 ^ 31 <= z < 2 ^ 31.

Definition slice (A : Type) := option (list A).

(** [for _, x := range s]: the elements visited, in order. *)
Definition range {A} (s : slice A) : list A := default [] s.

(** [append(s, x)]: never nil. *)
Definition append {A} (s : slice A) (x : A) : slice A := Some (range s ++ [x]).

(** ** Errors *)

(** The error values the controller handles: API status errors (the
    only ones [apierrors.IsNotFound] recognises), plain errors, and
    [errors.Wrap]. *)
Inductive error :=
| StatusError (reason : string) (message : string)
| ErrorString (message : string)
| WithMessage (cause : error) (message : string).

Definition StatusReasonNotFound := "NotFound".

Fixpoint Error (e : error) : string :=
  match e with
  | StatusError _ m => m
  | ErrorString m => m
  | WithMessage c m => m +:+ ": " +:+ Error c
  end.

(** [errors.Wrap(err, msg)] on a non-nil error. *)
Definition Wrap (err : error) (message : string) : error := WithMessage err message.

Definition IsNotFound (err : error) : bool :=
  match err with
  | StatusError reason _ => bool_decide (reason = StatusReasonNotFound)
  | _ => false
  end.

(** [client.IgnoreNotFound]. *)
Definition IgnoreNotFound (err : error) : option error :=
  if IsNotFound err then None else Some err.

(** ** API objects *)

Module TypeMeta.
Record t := mk { Kind : string; APIVersion : string }.
End TypeMeta.

Module OwnerReference.
Record t := mk {
  APIVersion : string;
  Kind : string;
  Name : string;
  UID : string;
  Controller : option bool;
  BlockOwnerDeletion : option bool }.
End OwnerReference.

Module ObjectMeta.
Record t := mk {
  Name : string;
  Namespace : string;
  UID : string;
  Labels : gmap string string;
  Annotations : gmap string string;
  OwnerReferences : list OwnerReference.t }.

Definition setLabels (l : gmap string string) (m : t) : t :=
  mk (Name m) (Namespace m) (UID m) l (Annotations m) (OwnerReferences m).
Definition setAnnotations (a : gmap string string) (m : t) : t :=
  mk (Name m) (Namespace m) (UID m) (Labels m) a (OwnerReferences m).
Definition setOwnerReferences (o : list OwnerReference.t) (m : t) : t :=
  mk (Name m) (Namespace m) (UID m) (Labels m) (Annotations m) o.
End ObjectMeta.

Module LabelSelector.
Record t := mk { MatchLabels : gmap string string }.
End LabelSelector.

Module ContainerPort.
Record t := mk {
  Name : string;
  ContainerPort : int32;
  Protocol : string }.
End ContainerPort.

Module Container.
Record t := mk {
  Name : string;
  Image : string;
  Ports : slice ContainerPort.t }.
End Container.

Module PodSpec.
Record t := mk { Containers : slice Container.t }.
End PodSpec.

Module PodTemplateSpec.
Record t := mk { ObjectMeta : ObjectMeta.t; Spec : PodSpec.t }.

Definition setObjectMeta (m : ObjectMeta.t) (p : t) : t := mk m (Spec p).
End PodTemplateSpec.

Module DeploymentSpec.
Record t := mk {
  Replicas : option int32;
  Selector : option LabelSelector.t;
  Template : PodTemplateSpec.t }.

Definition setTemplate (p : PodTemplateSpec.t) (s : t) : t :=
  mk (Replicas s) (Selector s) p.
End DeploymentSpec.

Module Deployment.
Record t := mk {
  TypeMeta : TypeMeta.t;
  ObjectMeta : ObjectMeta.t;
  Spec : DeploymentSpec.t }.

Definition setObjectMeta (m : ObjectMeta.t) (d : t) : t := mk (TypeMeta d) m (Spec d).
Definition setSpec (s : DeploymentSpec.t) (d : t) : t := mk (TypeMeta d) (ObjectMeta d) s.
End Deployment.

(** [intstr.IntOrString]. *)
Module IntOrString.
Inductive t := Int (IntVal : int32) | String (StrVal : string).
(** [intstr.FromInt(val int)]: the value is stored as an int32. *)
Definition FromInt (val : Z) : t := Int (wrap32 val).
End IntOrString.

Module ServicePort.
Record t := mk {
  Name : string;
  Protocol : string;
  Port : int32;
  TargetPort : IntOrString.t }.
End ServicePort.

Definition ServiceTypeClusterIP := "ClusterIP".

Module ServiceSpec.
Record t := mk {
  Selector : gmap string string;
  Ports : slice ServicePort.t;
  Type_ : string }.

Definition setPorts (p : slice ServicePort.t) (s : t) : t := mk (Selector s) p (Type_ s).
End ServiceSpec.

Module Service.
Record t := mk {
  TypeMeta : TypeMeta.t;
  ObjectMeta : ObjectMeta.t;
  Spec : ServiceSpec.t }.

Definition setObjectMeta (m : ObjectMeta.t) (s : t) : t := mk (TypeMeta s) m (Spec s).
Definition setSpec (sp : ServiceSpec.t) (s : t) : t := mk (TypeMeta s) (ObjectMeta s) sp.
End Service.

(** [cpv1alpha1.TypedReference]. *)
Module TypedReference.
Record t := mk {
  APIVersion : string;
  Kind : string;
  Name : string;
  UID : string }.
End TypedReference.

(** [cpv1alpha1.Condition], without its transition time. *)
Module Condition.
Record t := mk {
  Type_ : string;
  Status : string;
  Reason : string;
  Message : string }.

#[global] Instance eq_dec : EqDecision t.
Proof. solve_decision. Defined.
End Condition.

(** The declared workload, [v1alpha1.Containerized], as the controller
    uses it. *)
Module ContainerizedSpec.
Record t := mk { Replicas : option int32; PodSpec : PodSpec.t }.
End ContainerizedSpec.

Module ContainerizedStatus.
Record t := mk {
  Conditions : list Condition.t;
  Resources : slice TypedReference.t }.
End ContainerizedStatus.

Module Containerized.
Record t := mk {
  TypeMeta : TypeMeta.t;
  ObjectMeta : ObjectMeta.t;
  Spec : ContainerizedSpec.t;
  Status : ContainerizedStatus.t }.

Definition GetName (w : t) : string := ObjectMeta.Name (ObjectMeta w).
Definition GetNamespace (w : t) : string := ObjectMeta.Namespace (ObjectMeta w).
Definition GetUID (w : t) : string := ObjectMeta.UID (ObjectMeta w).
Definition GetLabels (w : t) := ObjectMeta.Labels (ObjectMeta w).
Definition GetAnnotations (w : t) := ObjectMeta.Annotations (ObjectMeta w).

Definition setStatus (s : ContainerizedStatus.t) (w : t) : t :=
  mk (TypeMeta w) (ObjectMeta w) (Spec w) s.
End Containerized.

(** ** Constants of the controller *)

Definition errRenderDeployment := "cannot render deployment".
Definition errRenderService := "cannot render service".
Definition errApplyDeployment := "cannot apply the deployment".
Definition errApplyService := "cannot apply the service".

Definition deploymentKind := "Deployment".
Definition deploymentAPIVersion := "apps/v1".
Definition serviceKind := "Service".
Definition serviceAPIVersion := "v1".

Definition labelNameKey := "component.oam.dev/name".

(** ** Label and annotation pass-through *)

(** Modelled from the spec: [util.PassLabelAndAnnotation] of the OAM
    runtime is not part of the controller's source.  The labels and the
    annotations of the parent are merged into those of the child; a key
    the child already carries keeps the child's value.  ([∪] on [gmap]
    prefers its left operand.) *)
Definition PassLabelAndAnnotation (parent : Containerized.t) (child : ObjectMeta.t)
  : ObjectMeta.t :=
  ObjectMeta.setAnnotations
    (ObjectMeta.Annotations child ∪ Containerized.GetAnnotations parent)
    (ObjectMeta.setLabels
       (ObjectMeta.Labels child ∪ Containerized.GetLabels parent) child).

(** ** Group-version strings *)

(** [s] cut at its first slash, if it has one. *)
Fixpoint cutSlash (s : string) : option (string * string) :=
  match s with
  | EmptyString => None
  | String c rest =>
      if Ascii.eqb c "/"%char then Some (EmptyString, rest)
      else (fun p : string * string => (String c p.1, p.2)) <$> cutSlash rest
  end.

(** [obj.GetObjectKind().GroupVersionKind().GroupVersion().String()] as
    a function of the object's API version: the version is parsed into
    group and version and printed again.  More than one slash does not
    parse and leaves the empty group-version. *)
Definition GroupVersionString (apiVersion : string) : string :=
  match cutSlash apiVersion with
  | None => apiVersion
  | Some (group, version) =>
      match cutSlash version with
      | Some _ => ""
      | None => if bool_decide (group = "") then version else group +:+ "/" +:+ version
      end
  end.

(** The typed reference to a child, as [Reconcile] builds it. *)
Definition typedReference (tm : TypeMeta.t) (m : ObjectMeta.t) : TypedReference.t :=
  {| TypedReference.APIVersion := GroupVersionString (TypeMeta.APIVersion tm);
     TypedReference.Kind := TypeMeta.Kind tm;
     TypedReference.Name := ObjectMeta.Name m;
     TypedReference.UID := ObjectMeta.UID m |}.

(** ** Events, conditions, results *)

Module Event.
Inductive EventType := TypeNormal | TypeWarning.
Record t := mk { Type_ : EventType; Reason : string; Message : string }.

Definition Normal (reason message : string) : t := mk TypeNormal reason message.
Definition Warning (reason : string) (err : error) : t := mk TypeWarning reason (Error err).
End Event.

(** The object an event is recorded against: the parent application
    configuration, or the workload itself. *)
Inductive EventObject :=
| ParentAppConfig (meta : ObjectMeta.t)
| TheWorkload (w : Containerized.t).

Definition TypeSynced := "Synced".
Definition ConditionTrue := "True".
Definition ConditionFalse := "False".
Definition ReasonReconcileSuccess := "Successfully reconciled resource".
Definition ReasonReconcileError := "Encountered an error during resource reconciliation".

Definition ReconcileSuccess : Condition.t :=
  {| Condition.Type_ := TypeSynced; Condition.Status := ConditionTrue;
     Condition.Reason := ReasonReconcileSuccess; Condition.Message := "" |}.

(** [cpv1alpha1.ReconcileError(err)]. *)
Definition ReconcileError (err : error) : Condition.t :=
  {| Condition.Type_ := TypeSynced; Condition.Status := ConditionFalse;
     Condition.Reason := ReasonReconcileError;
     Condition.Message := Error err |}.

(** [ConditionedStatus.SetConditions] for one condition: a condition of
    the same type is replaced in place, otherwise the new one is appended. *)
Definition SetConditions (c : Condition.t) (conds : list Condition.t) : list Condition.t :=
  if existsb (fun e => bool_decide (Condition.Type_ e = Condition.Type_ c)) conds
  then map (fun e => if bool_decide (Condition.Type_ e = Condition.Type_ c) then c else e) conds
  else conds ++ [c].

(** [ctrl.Result]; [RequeueAfter] in nanoseconds. *)
Module Result.
Record t := mk { Requeue : bool; RequeueAfter : Z }.
Definition empty : t := mk false 0.
End Result.

(** ** The cluster-state store and the client *)

Definition NamespacedName : Type := string * string.

Module World.
(** The write requests a cycle sends to the API server. *)
Inductive Request :=
| PatchDeploymentReq (d : Deployment.t) (fieldOwner : string)
| PatchServiceReq (s : Service.t) (fieldOwner : string)
| StatusUpdateReq (w : Containerized.t)
| StatusPatchReq (key : NamespacedName) (conditions : list Condition.t).

Record t := mk {
  Workloads : gmap NamespacedName Containerized.t;
  Deployments : gmap NamespacedName Deployment.t;
  Services : gmap NamespacedName Service.t;
  (** events recorded so far, oldest first *)
  Events : list (EventObject * Event.t);
  (** write requests sent so far, oldest first, accepted or not *)
  Requests : list Request }.

Definition send (q : Request) (σ : t) : t :=
  mk (Workloads σ) (Deployments σ) (Services σ) (Events σ) (Requests σ ++ [q]).
Definition record (o : EventObject) (e : Event.t) (σ : t) : t :=
  mk (Workloads σ) (Deployments σ) (Services σ) (Events σ ++ [(o, e)]) (Requests σ).
Definition setWorkloads (m : gmap NamespacedName Containerized.t) (σ : t) : t :=
  mk m (Deployments σ) (Services σ) (Events σ) (Requests σ).
Definition setDeployments (m : gmap NamespacedName Deployment.t) (σ : t) : t :=
  mk (Workloads σ) m (Services σ) (Events σ) (Requests σ).
Definition setServices (m : gmap NamespacedName Service.t) (σ : t) : t :=
  mk (Workloads σ) (Deployments σ) m (Events σ) (Requests σ).
End World.

(** How the API server answers during one cycle: whether a request
    fails, and the object it sends back for an accepted patch (decoded
    into the caller's object, as [client.Patch] does). *)
Module Client.
Record t := mk {
  GetFault : option error;
  PatchDeploymentReply : Deployment.t -> error + Deployment.t;
  PatchServiceReply : Service.t -> error + Service.t;
  StatusUpdateFault : option error;
  StatusPatchFault : option error }.
End Client.

Definition keyOf (m : ObjectMeta.t) : NamespacedName :=
  (ObjectMeta.Namespace m, ObjectMeta.Name m).

Definition errNotFound (key : NamespacedName) : error :=
  StatusError StatusReasonNotFound (key.2 +:+ " not found").

(** [r.Get(ctx, key, &workload)]. *)
Definition Get (c : Client.t) (key : NamespacedName) (σ : World.t)
  : error + Containerized.t :=
  match Client.GetFault c with
  | Some err => inl err
  | None =>
      match World.Workloads σ !! key with
      | Some w => inr w
      | None => inl (errNotFound key)
      end
  end.

(** [r.Patch(ctx, deploy, client.Merge, ForceOwnership, FieldOwner(uid))]. *)
Definition PatchDeployment (c : Client.t) (deploy : Deployment.t) (fieldOwner : string)
    (σ : World.t) : (error + Deployment.t) * World.t :=
  let σ := World.send (World.PatchDeploymentReq deploy fieldOwner) σ in
  match Client.PatchDeploymentReply c deploy with
  | inl err => (inl err, σ)
  | inr stored =>
      (inr stored,
       World.setDeployments
         (<[keyOf (Deployment.ObjectMeta deploy) := stored]> (World.Deployments σ)) σ)
  end.

(** [r.Patch(ctx, service, client.Merge, ForceOwnership, FieldOwner(uid))]. *)
Definition PatchService (c : Client.t) (service : Service.t) (fieldOwner : string)
    (σ : World.t) : (error + Service.t) * World.t :=
  let σ := World.send (World.PatchServiceReq service fieldOwner) σ in
  match Client.PatchServiceReply c service with
  | inl err => (inl err, σ)
  | inr stored =>
      (inr stored,
       World.setServices
         (<[keyOf (Service.ObjectMeta service) := stored]> (World.Services σ)) σ)
  end.

(** [r.Status().Update(ctx, &workload)]: the stored workload takes the
    whole status of the submitted one. *)
Definition StatusUpdate (c : Client.t) (workload : Containerized.t) (σ : World.t)
  : option error * World.t :=
  let key := keyOf (Containerized.ObjectMeta workload) in
  let σ := World.send (World.StatusUpdateReq workload) σ in
  match Client.StatusUpdateFault c with
  | Some err => (Some err, σ)
  | None =>
      match World.Workloads σ !! key with
      | None => (Some (errNotFound key), σ)
      | Some stored =>
          (None,
           World.setWorkloads
             (<[key := Containerized.setStatus (Containerized.Status workload) stored]>
                (World.Workloads σ)) σ)
      end
  end.

(** ** The controller *)

Section Controller.

(** The controller runtime: the scheme and the ownership binder.
    [SetControllerReference owner child scheme] either fails or gives
    the owner references the child carries afterwards; it touches
    nothing else of the child. *)
Variable Scheme : Type.
Variable SetControllerReference :
  Containerized.t -> ObjectMeta.t -> Scheme -> error + list OwnerReference.t.

(** [util.LocateParentAppConfig]: the parent to report to, if any, and
    the lookup error. *)
Variable LocateParentAppConfig :
  World.t -> Containerized.t -> option ObjectMeta.t * option error.

(** Constants of the OAM runtime: the requeue outcome of a failed
    cycle, and the message [util.PatchCondition] wraps its error in. *)
Variable ReconcileWaitResult : Result.t.
Variable errUpdateStatus : string.

Record ContainerizedReconciler := {
  Client : Client.t;
  Scheme_ : Scheme }.

(** Modelled from the spec: [util.PatchCondition] of the OAM runtime.
    It sets the condition on the workload in memory and sends the
    difference to the status sub-resource as a merge patch: the stored
    conditions become those in memory, nothing else of the stored
    status changes, and an unchanged condition list sends an empty
    patch. *)
Definition PatchCondition (r : ContainerizedReconciler) (workload : Containerized.t)
    (condition : Condition.t) (σ : World.t) : option error * World.t :=
  let key := keyOf (Containerized.ObjectMeta workload) in
  let before := ContainerizedStatus.Conditions (Containerized.Status workload) in
  let after := SetConditions condition before in
  let σ := World.send (World.StatusPatchReq key after) σ in
  match Client.StatusPatchFault (Client r) with
  | Some err => (Some (Wrap err errUpdateStatus), σ)
  | None =>
      match World.Workloads σ !! key with
      | None => (Some (Wrap (errNotFound key) errUpdateStatus), σ)
      | Some stored =>
          if decide (after = before) then (None, σ)
          else
            let status :=
              {| ContainerizedStatus.Conditions := after;
                 ContainerizedStatus.Resources :=
                   ContainerizedStatus.Resources (Containerized.Status stored) |} in
            (None,
             World.setWorkloads
               (<[key := Containerized.setStatus status stored]> (World.Workloads σ)) σ)
      end
  end.

(** *** renderDeployment *)

Definition renderDeployment (r : ContainerizedReconciler) (workload : Containerized.t)
  : error + Deployment.t :=
  let deploy :=
    {| Deployment.TypeMeta :=
         {| TypeMeta.Kind := deploymentKind; TypeMeta.APIVersion := deploymentAPIVersion |};
       Deployment.ObjectMeta :=
         {| ObjectMeta.Name := Containerized.GetName workload;
            ObjectMeta.Namespace := Containerized.GetNamespace workload;
            ObjectMeta.UID := ""; ObjectMeta.Labels := ∅;
            ObjectMeta.Annotations := ∅; ObjectMeta.OwnerReferences := [] |};
       Deployment.Spec :=
         {| DeploymentSpec.Replicas :=
              ContainerizedSpec.Replicas (Containerized.Spec workload);
            DeploymentSpec.Selector :=
              Some {| LabelSelector.MatchLabels :=
                        {[ labelNameKey := Containerized.GetName workload ]} |};
            DeploymentSpec.Template :=
              {| PodTemplateSpec.ObjectMeta :=
                   {| ObjectMeta.Name := ""; ObjectMeta.Namespace := "";
                      ObjectMeta.UID := "";
                      ObjectMeta.Labels :=
                        {[ labelNameKey := Containerized.GetName workload ]};
                      ObjectMeta.Annotations := ∅;
                      ObjectMeta.OwnerReferences := [] |};
                 PodTemplateSpec.Spec :=
                   ContainerizedSpec.PodSpec (Containerized.Spec workload) |} |} |} in
  (* pass through label and annotation from the workload to the deployment *)
  let deploy :=
    Deployment.setObjectMeta
      (PassLabelAndAnnotation workload (Deployment.ObjectMeta deploy)) deploy in
  (* pass through label and annotation from the workload to the pod template too *)
  let template := DeploymentSpec.Template (Deployment.Spec deploy) in
  let deploy :=
    Deployment.setSpec
      (DeploymentSpec.setTemplate
         (PodTemplateSpec.setObjectMeta
            (PassLabelAndAnnotation workload (PodTemplateSpec.ObjectMeta template))
            template)
         (Deployment.Spec deploy)) deploy in
  (* set the controller reference *)
  match SetControllerReference workload (Deployment.ObjectMeta deploy) (Scheme_ r) with
  | inl err => inl err
  | inr refs =>
      inr (Deployment.setObjectMeta
             (ObjectMeta.setOwnerReferences refs (Deployment.ObjectMeta deploy)) deploy)
  end.

(** *** renderService *)

(** The body of the inner loop: one service port for one container
    port, numbered by the running counter, which is then incremented. *)
Definition addServicePort (port : ContainerPort.t) (st : Service.t * int32)
  : Service.t * int32 :=
  let '(service, servicePort) := st in
  let sp :=
    {| ServicePort.Name := ContainerPort.Name port;
       ServicePort.Protocol := ContainerPort.Protocol port;
       ServicePort.Port := servicePort;
       ServicePort.TargetPort :=
         IntOrString.FromInt (ContainerPort.ContainerPort port) |} in
  (Service.setSpec
     (ServiceSpec.setPorts (append (ServiceSpec.Ports (Service.Spec service)) sp)
        (Service.Spec service)) service,
   wrap32 (servicePort + 1)).

Fixpoint portsLoop (ports : list ContainerPort.t) (st : Service.t * int32)
  : Service.t * int32 :=
  match ports with
  | [] => st
  | port :: rest => portsLoop rest (addServicePort port st)
  end.

Fixpoint containersLoop (containers : list Container.t) (st : Service.t * int32)
  : Service.t * int32 :=
  match containers with
  | [] => st
  | container :: rest =>
      containersLoop rest (portsLoop (range (Container.Ports container)) st)
  end.

Definition renderService (r : ContainerizedReconciler) (workload : Containerized.t)
  : error + Service.t :=
  let service :=
    {| Service.TypeMeta :=
         {| TypeMeta.Kind := serviceKind; TypeMeta.APIVersion := serviceAPIVersion |};
       Service.ObjectMeta :=
         {| ObjectMeta.Name := Containerized.GetName workload;
            ObjectMeta.Namespace := Containerized.GetNamespace workload;
            ObjectMeta.UID := "";
            ObjectMeta.Labels := {[ labelNameKey := Containerized.GetName workload ]};
            ObjectMeta.Annotations := ∅; ObjectMeta.OwnerReferences := [] |};
       Service.Spec :=
         {| ServiceSpec.Selector := {[ labelNameKey := Containerized.GetName workload ]};
            ServiceSpec.Ports := Some [];
            ServiceSpec.Type_ := ServiceTypeClusterIP |} |} in
  (* create a port for each ports in the all the containers *)
  let '(service, _) :=
    containersLoop
      (range (PodSpec.Containers (ContainerizedSpec.PodSpec (Containerized.Spec workload))))
      (service, 8080) in
  (* always set the controller reference *)
  match SetControllerReference workload (Service.ObjectMeta service) (Scheme_ r) with
  | inl err => inl err
  | inr refs =>
      inr (Service.setObjectMeta
             (ObjectMeta.setOwnerReferences refs (Service.ObjectMeta service)) service)
  end.

(** *** Reconcile *)

Definition deploymentCreated (workload : Containerized.t) (deploy : Deployment.t) : Event.t :=
  Event.Normal "Deployment created"
    ("Workload `" +:+ Containerized.GetName workload
       +:+ "` successfully patched a deployment `"
       +:+ ObjectMeta.Name (Deployment.ObjectMeta deploy) +:+ "`").

Definition serviceCreated (workload : Containerized.t) (service : Service.t) : Event.t :=
  Event.Normal "Service created"
    ("Workload `" +:+ Containerized.GetName workload
       +:+ "` successfully server side patched a service `"
       +:+ ObjectMeta.Name (Service.ObjectMeta service) +:+ "`").

(** One reconciliation cycle: the outcome, the error returned, and
    the world afterwards. *)
Definition Reconcile (r : ContainerizedReconciler) (req : NamespacedName) (σ : World.t)
  : (Result.t * option error) * World.t :=
  match Get (Client r) req σ with
  | inl err => ((Result.empty, IgnoreNotFound err), σ)
  | inr workload =>
      (* find the resource object to record the event to *)
      let eventObj :=
        match (LocateParentAppConfig σ workload).1 with
        | Some parent => ParentAppConfig parent
        | None => TheWorkload workload
        end in
      match renderDeployment r workload with
      | inl err =>
          let σ := World.record eventObj (Event.Warning errRenderDeployment err) σ in
          let '(perr, σ) :=
            PatchCondition r workload (ReconcileError (Wrap err errRenderDeployment)) σ in
          ((ReconcileWaitResult, perr), σ)
      | inr deploy =>
          let fieldOwner := Containerized.GetUID workload in
          match PatchDeployment (Client r) deploy fieldOwner σ with
          | (inl err, σ) =>
              let σ := World.record eventObj (Event.Warning errApplyDeployment err) σ in
              let '(perr, σ) :=
                PatchCondition r workload (ReconcileError (Wrap err errApplyDeployment)) σ in
              ((ReconcileWaitResult, perr), σ)
          | (inr deploy, σ) =>
              let σ := World.record eventObj (deploymentCreated workload deploy) σ in
              (* create a service for the workload *)
              match renderService r workload with
              | inl err =>
                  let σ := World.record eventObj (Event.Warning errRenderService err) σ in
                  let '(perr, σ) :=
                    PatchCondition r workload
                      (ReconcileError (Wrap err errRenderService)) σ in
                  ((ReconcileWaitResult, perr), σ)
              | inr service =>
                  match PatchService (Client r) service fieldOwner σ with
                  | (inl err, σ) =>
                      let σ :=
                        World.record eventObj (Event.Warning errApplyDeployment err) σ in
                      let '(perr, σ) :=
                        PatchCondition r workload
                          (ReconcileError (Wrap err errApplyService)) σ in
                      ((ReconcileWaitResult, perr), σ)
                  | (inr service, σ) =>
                      let σ := World.record eventObj (serviceCreated workload service) σ in
                      (* record the new deployment, new service *)
                      let workload :=
                        Containerized.setStatus
                          {| ContainerizedStatus.Conditions :=
                               ContainerizedStatus.Conditions (Containerized.Status workload);
                             ContainerizedStatus.Resources :=
                               Some [ typedReference (Deployment.TypeMeta deploy)
                                        (Deployment.ObjectMeta deploy);
                                      typedReference (Service.TypeMeta service)
                                        (Service.ObjectMeta service) ] |}
                          workload in
                      match StatusUpdate (Client r) workload σ with
                      | (Some err, σ) => ((ReconcileWaitResult, Some err), σ)
                      | (None, σ) =>
                          let '(perr, σ) := PatchCondition r workload ReconcileSuccess σ in
                          ((Result.empty, perr), σ)
                      end
                  end
              end
          end
      end
  end.

End Controller.

Arguments renderDeployment {Scheme} SetControllerReference r workload.
Arguments renderService {Scheme} SetControllerReference r workload.
Arguments PatchCondition {Scheme} errUpdateStatus r workload condition σ.
Arguments Reconcile {Scheme} SetControllerReference LocateParentAppConfig
  ReconcileWaitResult errUpdateStatus r req σ.
Arguments Client {Scheme} c.
Arguments Scheme_ {Scheme} c.

(** ** A concrete runtime

    One instance of the controller runtime and of the store, on which
    the properties below are exercised. *)

Module Sample.

(** A binder that refuses an owner without unique identifier and a
    child in another namespace, and otherwise makes the owner the
    child's only controller. *)
Definition bind (owner : Containerized.t) (child : ObjectMeta.t) (_ : unit)
  : error + list OwnerReference.t :=
  if bool_decide (Containerized.GetUID owner = "") then
    inl (ErrorString "owner has no unique identifier")
  else if bool_decide (Containerized.GetNamespace owner = ObjectMeta.Namespace child) then
    inr [ {| OwnerReference.APIVersion := TypeMeta.APIVersion (Containerized.TypeMeta owner);
             OwnerReference.Kind := TypeMeta.Kind (Containerized.TypeMeta owner);
             OwnerReference.Name := Containerized.GetName owner;
             OwnerReference.UID := Containerized.GetUID owner;
             OwnerReference.Controller := Some true;
             OwnerReference.BlockOwnerDeletion := Some true |} ]
  else inl (ErrorString "cross-namespace owner references are disallowed").

Definition noParent (_ : World.t) (_ : Containerized.t)
  : option ObjectMeta.t * option error :=
  (None, Some (ErrorString "no parent application configuration")).

Definition waitResult : Result.t := Result.mk false 30000000000.
Definition errUpdateStatus : string := "cannot apply status".

Definition port (name : string) (number : Z) : ContainerPort.t :=
  {| ContainerPort.Name := name; ContainerPort.ContainerPort := number;
     ContainerPort.Protocol := "TCP" |}.

Definition container (name : string) (ports : list ContainerPort.t) : Container.t :=
  {| Container.Name := name; Container.Image := "nginx"; Container.Ports := Some ports |}.

Definition workload (name uid : string) (labels : gmap string string)
    (containers : list Container.t) (resources : slice TypedReference.t)
  : Containerized.t :=
  {| Containerized.TypeMeta :=
       {| TypeMeta.Kind := "Containerized";
          TypeMeta.APIVersion := "standard.oam.dev/v1alpha1" |};
     Containerized.ObjectMeta :=
       {| ObjectMeta.Name := name; ObjectMeta.Namespace := "default";
          ObjectMeta.UID := uid; ObjectMeta.Labels := labels;
          ObjectMeta.Annotations := {[ "description" := "declared by the user" ]};
          ObjectMeta.OwnerReferences := [] |};
     Containerized.Spec :=
       {| ContainerizedSpec.Replicas := Some 3;
          ContainerizedSpec.PodSpec := {| PodSpec.Containers := Some containers |} |};
     Containerized.Status :=
       {| ContainerizedStatus.Conditions := [];
          ContainerizedStatus.Resources := resources |} |}.

(** The workload of the end-to-end scenario. *)
Definition web : Containerized.t :=
  workload "web" "uid-web" {[ "app" := "shop" ]}
    [ container "main" [ port "http" 8080 ] ] None.

(** Two containers declaring ports 80, 81 and 443. *)
Definition threePorts : Containerized.t :=
  workload "edge" "uid-edge" ∅
    [ container "a" [ port "http" 80; port "alt" 81 ];
      container "b" [ port "https" 443 ] ] None.

(** A workload that carries a label under the component-name key. *)
Definition relabelled : Containerized.t :=
  workload "web" "uid-web" {[ labelNameKey := "other"; "app" := "shop" ]}
    [ container "main" [ port "http" 8080 ] ] None.

(** A workload that was never persisted: it has no unique identifier. *)
Definition unsaved : Containerized.t :=
  workload "web" "" ∅ [ container "main" [ port "http" 8080 ] ] None.

(** A workload whose containers declare no port. *)
Definition idle : Containerized.t :=
  workload "idle" "uid-idle" ∅ [ container "main" []; container "sidecar" [] ] None.

(** The references an earlier cycle left in the status. *)
Definition earlier : list TypedReference.t :=
  [ {| TypedReference.APIVersion := "apps/v1"; TypedReference.Kind := "Deployment";
       TypedReference.Name := "web"; TypedReference.UID := "uid-old-deployment" |};
    {| TypedReference.APIVersion := "v1"; TypedReference.Kind := "Service";
       TypedReference.Name := "web"; TypedReference.UID := "uid-old-service" |};
    {| TypedReference.APIVersion := "v1"; TypedReference.Kind := "ConfigMap";
       TypedReference.Name := "left-over"; TypedReference.UID := "uid-left-over" |} ].

(** The scenario's workload after an earlier cycle. *)
Definition webApplied : Containerized.t :=
  workload "web" "uid-web" {[ "app" := "shop" ]}
    [ container "main" [ port "http" 8080 ] ] (Some earlier).

(** An API server that accepts a patch and gives the object an
    identifier. *)
Definition storeDeployment (d : Deployment.t) : error + Deployment.t :=
  inr (Deployment.setObjectMeta
         (let m := Deployment.ObjectMeta d in
          ObjectMeta.mk (ObjectMeta.Name m) (ObjectMeta.Namespace m) "uid-deployment"
            (ObjectMeta.Labels m) (ObjectMeta.Annotations m) (ObjectMeta.OwnerReferences m))
         d).

Definition storeService (s : Service.t) : error + Service.t :=
  inr (Service.setObjectMeta
         (let m := Service.ObjectMeta s in
          ObjectMeta.mk (ObjectMeta.Name m) (ObjectMeta.Namespace m) "uid-service"
            (ObjectMeta.Labels m) (ObjectMeta.Annotations m) (ObjectMeta.OwnerReferences m))
         s).

Definition rejectService (_ : Service.t) : error + Service.t :=
  inl (ErrorString "the server is unreachable").

Definition healthy : Client.t :=
  {| Client.GetFault := None;
     Client.PatchDeploymentReply := storeDeployment;
     Client.PatchServiceReply := storeService;
     Client.StatusUpdateFault := None;
     Client.StatusPatchFault := None |}.

Definition serviceDown : Client.t :=
  {| Client.GetFault := None;
     Client.PatchDeploymentReply := storeDeployment;
     Client.PatchServiceReply := rejectService;
     Client.StatusUpdateFault := None;
     Client.StatusPatchFault := None |}.

Definition rejectDeployment (_ : Deployment.t) : error + Deployment.t :=
  inl (StatusError "Forbidden" "deployments.apps is forbidden").

Definition deploymentDown : Client.t :=
  {| Client.GetFault := None;
     Client.PatchDeploymentReply := rejectDeployment;
     Client.PatchServiceReply := storeService;
     Client.StatusUpdateFault := None;
     Client.StatusPatchFault := None |}.

Definition getDown : Client.t :=
  {| Client.GetFault := Some (ErrorString "connection refused");
     Client.PatchDeploymentReply := storeDeployment;
     Client.PatchServiceReply := storeService;
     Client.StatusUpdateFault := None;
     Client.StatusPatchFault := None |}.

Definition statusDown : Client.t :=
  {| Client.GetFault := None;
     Client.PatchDeploymentReply := storeDeployment;
     Client.PatchServiceReply := storeService;
     Client.StatusUpdateFault :=
       Some (StatusError "Conflict" "the object has been modified");
     Client.StatusPatchFault := None |}.

(** A parent application configuration, and a lookup that finds it. *)
Definition shop : ObjectMeta.t :=
  {| ObjectMeta.Name := "shop"; ObjectMeta.Namespace := "default";
     ObjectMeta.UID := "uid-shop"; ObjectMeta.Labels := ∅;
     ObjectMeta.Annotations := ∅; ObjectMeta.OwnerReferences := [] |}.

Definition shopParent (_ : World.t) (_ : Containerized.t)
  : option ObjectMeta.t * option error :=
  (Some shop, None).

(** A binder that cannot represent a child already labelled with the
    component name as owned: it accepts the deployment, whose own labels
    are the workload's, and refuses the service. *)
Definition bindUnlabelled (owner : Containerized.t) (child : ObjectMeta.t) (_ : unit)
  : error + list OwnerReference.t :=
  match ObjectMeta.Labels child !! labelNameKey with
  | Some _ => inl (ErrorString "child cannot be owned by this owner")
  | None => bind owner child tt
  end.

Definition reconciler (c : Client.t) : ContainerizedReconciler unit :=
  {| Client := c; Scheme_ := tt |}.

Definition world (ws : list Containerized.t) : World.t :=
  {| World.Workloads :=
       list_to_map (map (fun w => (keyOf (Containerized.ObjectMeta w), w)) ws);
     World.Deployments := ∅; World.Services := ∅;
     World.Events := []; World.Requests := [] |}.

Definition run (c : Client.t) (ws : list Containerized.t) (req : NamespacedName) :=
  Reconcile bind noParent waitResult errUpdateStatus (reconciler c) req (world ws).

End Sample.


(** ** Observations

    What the properties below speak about. *)

(** The service port the [i]-th declared container port receives. *)
Definition exposed (i : nat) (port : ContainerPort.t) : ServicePort.t :=
  {| ServicePort.Name := ContainerPort.Name port;
     ServicePort.Protocol := ContainerPort.Protocol port;
     ServicePort.Port := wrap32 (8080 + Z.of_nat i);
     ServicePort.TargetPort := IntOrString.FromInt (ContainerPort.ContainerPort port) |}.

(** The container ports a workload declares, containers in order and
    the ports of each in order. *)
Definition declaredPorts (workload : Containerized.t) : list ContainerPort.t :=
  concat (map (fun c => range (Container.Ports c))
            (range (PodSpec.Containers
                      (ContainerizedSpec.PodSpec (Containerized.Spec workload))))).

Definition withPorts (ports : list ServicePort.t) (service : Service.t) : Service.t :=
  Service.setSpec (ServiceSpec.setPorts (Some ports) (Service.Spec service)) service.

(** The resource list and the conditions the store holds for a
    workload; [None] when the store has no such workload. *)
Definition resourcesOf (σ : World.t) (key : NamespacedName)
  : option (slice TypedReference.t) :=
  (fun w => ContainerizedStatus.Resources (Containerized.Status w))
    <$> World.Workloads σ !! key.

Definition conditionsOf (σ : World.t) (key : NamespacedName)
  : option (list Condition.t) :=
  (fun w => ContainerizedStatus.Conditions (Containerized.Status w))
    <$> World.Workloads σ !! key.

(** The events recorded and the write requests sent between two worlds. *)
Definition recordedBetween (σ σ' : World.t) : list Event.t :=
  snd <$> drop (length (World.Events σ)) (World.Events σ').

Definition sentBetween (σ σ' : World.t) : list World.Request :=
  drop (length (World.Requests σ)) (World.Requests σ').

Definition isStatusUpdate (q : World.Request) : bool :=
  match q with World.StatusUpdateReq _ => true | _ => false end.

Definition isWarning (e : Event.t) : bool :=
  match Event.Type_ e with Event.TypeWarning => true | Event.TypeNormal => false end.

(** A cycle reports an apply failure when one of its warnings carries
    one of the two apply reasons. *)
Definition reportsApplyFailure (σ σ' : World.t) : Prop :=
  exists e, e ∈ recordedBetween σ σ' /\ isWarning e = true /\
            (Event.Reason e = errApplyDeployment \/ Event.Reason e = errApplyService).

(** The store keeps every workload under its own namespace and name. *)
Definition wellKeyed (σ : World.t) : Prop :=
  forall key w, World.Workloads σ !! key = Some w ->
                keyOf (Containerized.ObjectMeta w) = key.

(** What the user declared of a workload: everything but its status. *)
Definition declared (w : Containerized.t)
  : TypeMeta.t * ObjectMeta.t * ContainerizedSpec.t :=
  (Containerized.TypeMeta w, Containerized.ObjectMeta w, Containerized.Spec w).

Definition declaredOf (σ : World.t) (key : NamespacedName)
  : option (TypeMeta.t * ObjectMeta.t * ContainerizedSpec.t) :=
  declared <$> World.Workloads σ !! key.

(** The object the events of a cycle on [workload] are recorded against. *)
Definition eventTarget
    (locate : World.t -> Containerized.t -> option ObjectMeta.t * option error)
    (σ : World.t) (workload : Containerized.t) : EventObject :=
  match (locate σ workload).1 with
  | Some parent => ParentAppConfig parent
  | None => TheWorkload workload
  end.

(** The events recorded between two worlds, with their targets. *)
Definition recordedOn (σ σ' : World.t) : list (EventObject * Event.t) :=
  drop (length (World.Events σ)) (World.Events σ').

Definition isStatusPatch (q : World.Request) : bool :=
  match q with World.StatusPatchReq _ _ => true | _ => false end.

Definition isServicePatch (q : World.Request) : bool :=
  match q with World.PatchServiceReq _ _ => true | _ => false end.

Definition isDeploymentPatch (q : World.Request) : bool :=
  match q with World.PatchDeploymentReq _ _ => true | _ => false end.

(** The field owner a patch request is sent under. *)
Definition fieldOwnerOf (q : World.Request) : option string :=
  match q with
  | World.PatchDeploymentReq _ owner | World.PatchServiceReq _ owner => Some owner
  | _ => None
  end.

(** * Properties *)

(** ** Arithmetic of the port counter *)

Lemma wrap32_id z : in_int32 z -> wrap32 z = z.
Proof.
  unfold in_int32, wrap32. intros Hz.
  rewrite Z.mod_small; lia.
Qed.

Lemma wrap32_succ z : wrap32 (wrap32 z + 1) = wrap32 (z + 1).
Proof.
  unfold wrap32.
  replace ((z + 2 ^ 31) `mod` 2 ^ 32 - 2 ^ 31 + 1 + 2 ^ 31)
    with ((z + 2 ^ 31) `mod` 2 ^ 32 + 1) by lia.
  rewrite Zplus_mod_idemp_l. f_equal. f_equal. lia.
Qed.

(** ** Group-version strings *)

Lemma cutSlash_app group version :
  cutSlash group = None ->
  cutSlash (group +:+ "/" +:+ version) = Some (group, version).
Proof.
  change ("/" +:+ version) with (String "/" version).
  induction group as [|c group IH]; [done|].
  simpl. destruct (Ascii.eqb c "/"); [done|].
  destruct (cutSlash group); [done|]. intros _. by rewrite IH.
Qed.

(** An API version without group is printed back as it is. *)
Lemma GroupVersionString_version version :
  cutSlash version = None -> GroupVersionString version = version.
Proof. unfold GroupVersionString. by intros ->. Qed.

(** So is one of the form group/version. *)
Lemma GroupVersionString_group_version group version :
  group <> "" -> cutSlash group = None -> cutSlash version = None ->
  GroupVersionString (group +:+ "/" +:+ version) = group +:+ "/" +:+ version.
Proof.
  intros Hne Hg Hv. unfold GroupVersionString.
  rewrite cutSlash_app, Hv by done. by rewrite bool_decide_eq_false_2.
Qed.

(** ** The service ports *)

Lemma portsLoop_spec ports service acc (k : nat) :
  portsLoop ports (withPorts acc service, wrap32 (8080 + Z.of_nat k)) =
  (withPorts (acc ++ imap (fun i => exposed (k + i)) ports) service,
   wrap32 (8080 + Z.of_nat (k + length ports))).
Proof.
  revert acc k. induction ports as [|port rest IH]; intros acc k; simpl.
  - rewrite app_nil_r. do 3 f_equal. lia.
  - change (append (Some acc) ?sp) with (Some (acc ++ [sp])).
    rewrite wrap32_succ.
    replace (8080 + Z.of_nat k + 1) with (8080 + Z.of_nat (S k)) by lia.
    change (Service.setSpec (ServiceSpec.setPorts (Some ?l) _) (withPorts acc service))
      with (withPorts l service).
    rewrite IH. rewrite <- app_assoc. simpl.
    f_equal.
    + do 2 f_equal. unfold exposed at 2. rewrite Nat.add_0_r. f_equal.
      apply imap_ext. intros i x _. simpl. f_equal. lia.
    + f_equal. lia.
Qed.

Lemma containersLoop_spec containers service acc (k : nat) :
  let declared := concat (map (fun c => range (Container.Ports c)) containers) in
  containersLoop containers (withPorts acc service, wrap32 (8080 + Z.of_nat k)) =
  (withPorts (acc ++ imap (fun i => exposed (k + i)) declared) service,
   wrap32 (8080 + Z.of_nat (k + length declared))).
Proof.
  revert acc k. induction containers as [|c rest IH]; intros acc k; simpl.
  - rewrite app_nil_r. do 3 f_equal. lia.
  - rewrite portsLoop_spec, IH. rewrite imap_app, length_app, <- app_assoc.
    f_equal.
    + do 3 f_equal. apply imap_ext. intros i x _. f_equal. lia.
    + do 2 f_equal. lia.
Qed.

Section Properties.

Context {Scheme : Type}.
Variable SetControllerReference :
  Containerized.t -> ObjectMeta.t -> Scheme -> error + list OwnerReference.t.
Variable LocateParentAppConfig :
  World.t -> Containerized.t -> option ObjectMeta.t * option error.
Variable ReconcileWaitResult : Result.t.
Variable errUpdateStatus : string.

Implicit Types (r : ContainerizedReconciler Scheme) (σ : World.t).

Local Abbreviation renderDeployment' := (renderDeployment SetControllerReference).
Local Abbreviation renderService' := (renderService SetControllerReference).
Local Abbreviation PatchCondition' := (PatchCondition errUpdateStatus).
Local Abbreviation Reconcile' :=
  (Reconcile SetControllerReference LocateParentAppConfig ReconcileWaitResult
     errUpdateStatus).

(** What [renderService] returns when the binder accepts: the spec it
    built, with exactly the exposed ports. *)
Lemma renderService_spec r workload service :
  renderService' r workload = inr service ->
  Service.TypeMeta service =
    {| TypeMeta.Kind := serviceKind; TypeMeta.APIVersion := serviceAPIVersion |} /\
  Service.Spec service =
    {| ServiceSpec.Selector := {[ labelNameKey := Containerized.GetName workload ]};
       ServiceSpec.Ports := Some (imap exposed (declaredPorts workload));
       ServiceSpec.Type_ := ServiceTypeClusterIP |} /\
  ObjectMeta.Name (Service.ObjectMeta service) = Containerized.GetName workload /\
  ObjectMeta.Namespace (Service.ObjectMeta service) = Containerized.GetNamespace workload /\
  ObjectMeta.Labels (Service.ObjectMeta service) =
    {[ labelNameKey := Containerized.GetName workload ]} /\
  ObjectMeta.Annotations (Service.ObjectMeta service) = ∅.
Proof.
  unfold renderService.
  match goal with
  | |- context [containersLoop ?cs (?s, 8080)] =>
      change (containersLoop cs (s, 8080))
        with (containersLoop cs (withPorts [] s, wrap32 (8080 + Z.of_nat 0)));
      rewrite (containersLoop_spec cs s [] 0)
  end.
  cbv zeta. simpl.
  destruct (SetControllerReference _ _ _) as [err|refs]; [discriminate|].
  intros [= <-]. simpl. repeat split.
Qed.

(** What [renderDeployment] returns when the binder accepts. *)
Lemma renderDeployment_spec r workload deploy :
  renderDeployment' r workload = inr deploy ->
  Deployment.TypeMeta deploy =
    {| TypeMeta.Kind := deploymentKind; TypeMeta.APIVersion := deploymentAPIVersion |} /\
  ObjectMeta.Name (Deployment.ObjectMeta deploy) = Containerized.GetName workload /\
  ObjectMeta.Namespace (Deployment.ObjectMeta deploy) =
    Containerized.GetNamespace workload /\
  ObjectMeta.Labels (Deployment.ObjectMeta deploy) =
    ∅ ∪ Containerized.GetLabels workload /\
  ObjectMeta.Annotations (Deployment.ObjectMeta deploy) =
    ∅ ∪ Containerized.GetAnnotations workload /\
  Deployment.Spec deploy =
    {| DeploymentSpec.Replicas :=
         ContainerizedSpec.Replicas (Containerized.Spec workload);
       DeploymentSpec.Selector :=
         Some {| LabelSelector.MatchLabels :=
                   {[ labelNameKey := Containerized.GetName workload ]} |};
       DeploymentSpec.Template :=
         {| PodTemplateSpec.ObjectMeta :=
              {| ObjectMeta.Name := ""; ObjectMeta.Namespace := ""; ObjectMeta.UID := "";
                 ObjectMeta.Labels :=
                   {[ labelNameKey := Containerized.GetName workload ]}
                     ∪ Containerized.GetLabels workload;
                 ObjectMeta.Annotations := ∅ ∪ Containerized.GetAnnotations workload;
                 ObjectMeta.OwnerReferences := [] |};
            PodTemplateSpec.Spec :=
              ContainerizedSpec.PodSpec (Containerized.Spec workload) |} |}.
Proof.
  unfold renderDeployment. cbv zeta. simpl.
  destruct (SetControllerReference _ _ _) as [err|refs]; [discriminate|].
  intros [= <-]. simpl. repeat split.
Qed.

(** C1: [renderService] yields exactly one service port per declared
    container port, containers in declaration order and the ports of
    each in order.  The [i]-th of them (from 0) is exposed under the
    int32 counter that starts at 8080 and is incremented once per port,
    that is [8080 + i] as long as this fits an int32; it targets the
    declared container port and copies its name and protocol.  For two
    containers declaring ports 80, 81 and 443 the result pairs
    8080 with 80, 8081 with 81 and 8082 with 443, in that order. *)
Theorem renderService_one_port_per_declared_port r workload service :
  renderService' r workload = inr service ->
  exists ports : list ServicePort.t,
    ServiceSpec.Ports (Service.Spec service) = Some ports /\
    length ports = length (declaredPorts workload) /\
    (forall (i : nat) (port : ContainerPort.t),
        declaredPorts workload !! i = Some port ->
        exists sp,
          ports !! i = Some sp /\
          ServicePort.Name sp = ContainerPort.Name port /\
          ServicePort.Protocol sp = ContainerPort.Protocol port /\
          ServicePort.Port sp = wrap32 (8080 + Z.of_nat i) /\
          (8080 + Z.of_nat i < 2 ^ 31 -> ServicePort.Port sp = 8080 + Z.of_nat i) /\
          ServicePort.TargetPort sp =
            IntOrString.FromInt (ContainerPort.ContainerPort port) /\
          (in_int32 (ContainerPort.ContainerPort port) ->
           ServicePort.TargetPort sp =
             IntOrString.Int (ContainerPort.ContainerPort port))) /\
    (map (fun c => map ContainerPort.ContainerPort (range (Container.Ports c)))
         (range (PodSpec.Containers
                   (ContainerizedSpec.PodSpec (Containerized.Spec workload))))
       = [[80; 81]; [443]] ->
     map (fun sp => (ServicePort.Port sp, ServicePort.TargetPort sp)) ports
       = [(8080, IntOrString.Int 80); (8081, IntOrString.Int 81);
          (8082, IntOrString.Int 443)]).
Proof.
  intros Hr. destruct (renderService_spec _ _ _ Hr) as (_ & Hspec & _).
  exists (imap exposed (declaredPorts workload)).
  split; [by rewrite Hspec|]. split; [apply length_imap|]. split.
  - intros i port Hi. exists (exposed i port).
    rewrite list_lookup_imap, Hi. simpl. repeat split.
    + intros Hlt. apply wrap32_id. unfold in_int32. lia.
    + intros Hp. unfold IntOrString.FromInt. by rewrite wrap32_id.
  - unfold declaredPorts.
    destruct (range _) as [|c1 [|c2 [|c3 cs]]]; try discriminate.
    simpl. intros [= H1 H2].
    destruct (range (Container.Ports c1)) as [|p1 [|p2 [|p3 ps]]]; try discriminate.
    destruct (range (Container.Ports c2)) as [|q1 [|q2 qs]]; try discriminate.
    simpl in *. injection H1 as -> ->. injection H2 as ->.
    reflexivity.
Qed.

(** C10: the service [renderService] returns is of type ClusterIP, and
    its port list is always allocated: when no container declares any
    port it is the empty list, not nil. *)
Theorem renderService_clusterIP_ports_allocated r workload service :
  renderService' r workload = inr service ->
  ServiceSpec.Type_ (Service.Spec service) = ServiceTypeClusterIP /\
  ServiceSpec.Ports (Service.Spec service) <> None /\
  ((forall c,
       c ∈ range (PodSpec.Containers
                    (ContainerizedSpec.PodSpec (Containerized.Spec workload))) ->
       range (Container.Ports c) = []) ->
   ServiceSpec.Ports (Service.Spec service) = Some []).
Proof.
  intros Hr. destruct (renderService_spec _ _ _ Hr) as (_ & -> & _). simpl.
  split; [done|]. split; [done|].
  intros Hnone. unfold declaredPorts.
  induction (range _) as [|c cs IH]; [done|]. simpl.
  rewrite (Hnone c) by apply list_elem_of_here. simpl.
  apply IH. intros c' Hc'. apply Hnone. by apply list_elem_of_further.
Qed.

(** C6: [renderDeployment] copies the replica count of the workload,
    takes the workload's pod specification as the pod template's, and
    puts the component-name label, with the workload's name as value,
    both in the selector and in the labels of the pod template,
    whatever label the workload itself carries under that key. *)
Theorem renderDeployment_replicas_template_selector r workload deploy :
  renderDeployment' r workload = inr deploy ->
  DeploymentSpec.Replicas (Deployment.Spec deploy) =
    ContainerizedSpec.Replicas (Containerized.Spec workload) /\
  PodTemplateSpec.Spec (DeploymentSpec.Template (Deployment.Spec deploy)) =
    ContainerizedSpec.PodSpec (Containerized.Spec workload) /\
  DeploymentSpec.Selector (Deployment.Spec deploy) =
    Some {| LabelSelector.MatchLabels :=
              {[ labelNameKey := Containerized.GetName workload ]} |} /\
  ObjectMeta.Labels
    (PodTemplateSpec.ObjectMeta (DeploymentSpec.Template (Deployment.Spec deploy)))
    !! labelNameKey = Some (Containerized.GetName workload).
Proof.
  intros Hr. destruct (renderDeployment_spec _ _ _ Hr) as (_ & _ & _ & _ & _ & ->).
  simpl. repeat split.
  apply lookup_union_Some_l, lookup_singleton_eq.
Qed.

(** C8: two workloads of different names are rendered to deployments
    with different selectors. *)
Theorem renderDeployment_selector_unique r a b da db :
  renderDeployment' r a = inr da ->
  renderDeployment' r b = inr db ->
  Containerized.GetName a <> Containerized.GetName b ->
  DeploymentSpec.Selector (Deployment.Spec da) <>
  DeploymentSpec.Selector (Deployment.Spec db).
Proof.
  intros Ha Hb Hne.
  destruct (renderDeployment_spec _ _ _ Ha) as (_ & _ & _ & _ & _ & ->).
  destruct (renderDeployment_spec _ _ _ Hb) as (_ & _ & _ & _ & _ & ->).
  cbn [DeploymentSpec.Selector]. intros Heq. apply Hne.
  apply (f_equal (fun o => s ← o; LabelSelector.MatchLabels s !! labelNameKey)) in Heq.
  cbn [mbind option_bind LabelSelector.MatchLabels] in Heq.
  rewrite !lookup_singleton_eq in Heq. congruence.
Qed.

(** *** The status writes *)

(** [PatchCondition] records no event, sends one status patch, and
    leaves the children and every stored resource list as they are. *)
Lemma PatchCondition_inv r workload condition σ perr σ' :
  PatchCondition' r workload condition σ = (perr, σ') ->
  World.Events σ' = World.Events σ /\
  World.Requests σ' =
    World.Requests σ ++
      [World.StatusPatchReq (keyOf (Containerized.ObjectMeta workload))
         (SetConditions condition
            (ContainerizedStatus.Conditions (Containerized.Status workload)))] /\
  World.Deployments σ' = World.Deployments σ /\
  World.Services σ' = World.Services σ /\
  (forall key, resourcesOf σ' key = resourcesOf σ key).
Proof.
  unfold PatchCondition. cbv zeta.
  destruct (Client.StatusPatchFault (Client r)) as [err|].
  { intros [= <- <-]. by repeat split. }
  cbn [World.send World.Workloads].
  destruct (World.Workloads σ !! keyOf (Containerized.ObjectMeta workload))
    as [stored|] eqn:Hstored.
  2: { intros [= <- <-]. by repeat split. }
  destruct (decide _).
  { intros [= <- <-]. by repeat split. }
  intros [= <- <-]. repeat split.
  intros key. unfold resourcesOf. cbn [World.setWorkloads World.Workloads].
  destruct (decide (keyOf (Containerized.ObjectMeta workload) = key)) as [<-|Hne].
  - by rewrite lookup_insert_eq, Hstored.
  - by rewrite lookup_insert_ne.
Qed.

Lemma Get_inr r req σ workload :
  Get (Client r) req σ = inr workload ->
  Client.GetFault (Client r) = None /\ World.Workloads σ !! req = Some workload.
Proof.
  unfold Get. destruct (Client.GetFault _); [discriminate|].
  destruct (_ !! _); [|discriminate]. by intros [= ->].
Qed.

(** Runs the condition patch a failing branch of the cycle ends with. *)
Ltac patch_condition :=
  let perr := fresh "perr" in
  let σ' := fresh "σ'" in
  let Hpc := fresh "Hpc" in
  destruct (PatchCondition _ _ _ _ _) as [perr σ'] eqn:Hpc;
  apply PatchCondition_inv in Hpc as (Hev & Hreq & Hdep & Hsvc & Hres);
  cbn [fst snd].

(** *** The store invariant *)

Lemma wellKeyed_setStatus σ key stored status :
  wellKeyed σ ->
  World.Workloads σ !! key = Some stored ->
  wellKeyed (World.setWorkloads
               (<[key := Containerized.setStatus status stored]> (World.Workloads σ)) σ).
Proof.
  intros Hwf Hstored key' w. cbn [World.setWorkloads World.Workloads].
  destruct (decide (key = key')) as [<-|Hne].
  - rewrite lookup_insert_eq. intros [= <-]. exact (Hwf _ _ Hstored).
  - rewrite lookup_insert_ne by done. apply Hwf.
Qed.

Lemma PatchCondition_wellKeyed r workload condition σ :
  wellKeyed σ -> wellKeyed (PatchCondition' r workload condition σ).2.
Proof.
  intros Hwf. unfold PatchCondition. cbv zeta.
  destruct (Client.StatusPatchFault (Client r)); [exact Hwf|].
  cbn [World.send World.Workloads].
  destruct (World.Workloads σ !! _) as [stored|] eqn:Hstored; [|exact Hwf].
  destruct (decide _); [exact Hwf|].
  by apply (wellKeyed_setStatus (World.send _ σ)).
Qed.

(** A cycle keeps every workload under its own key. *)
Lemma Reconcile_wellKeyed r req σ :
  wellKeyed σ -> wellKeyed (Reconcile' r req σ).2.
Proof.
  intros Hwf. unfold Reconcile, PatchDeployment, PatchService, StatusUpdate.
  destruct (Get (Client r) req σ) as [err|workload]; [exact Hwf|].
  destruct (renderDeployment' r workload) as [err|deploy].
  { rewrite (surjective_pairing (PatchCondition _ _ _ _ _)).
    by apply PatchCondition_wellKeyed. }
  destruct (Client.PatchDeploymentReply (Client r) deploy) as [err|deploy'].
  { rewrite (surjective_pairing (PatchCondition _ _ _ _ _)).
    by apply PatchCondition_wellKeyed. }
  destruct (renderService' r workload) as [err|service].
  { rewrite (surjective_pairing (PatchCondition _ _ _ _ _)).
    by apply PatchCondition_wellKeyed. }
  destruct (Client.PatchServiceReply (Client r) service) as [err|service'].
  { rewrite (surjective_pairing (PatchCondition _ _ _ _ _)).
    by apply PatchCondition_wellKeyed. }
  destruct (Client.StatusUpdateFault (Client r)); [exact Hwf|].
  cbn [World.record World.send World.setDeployments World.setServices World.Workloads].
  destruct (World.Workloads σ !! _) as [stored|] eqn:Hstored; [|exact Hwf].
  rewrite (surjective_pairing (PatchCondition _ _ _ _ _)).
  apply PatchCondition_wellKeyed.
  match goal with
  | |- wellKeyed (World.setWorkloads _ ?w) => by apply (wellKeyed_setStatus w)
  end.
Qed.

(** *** The cycle *)

(** C4: when the store has no workload of the requested identity, the
    cycle ends with the empty result (no requeue) and no error, and
    leaves the world as it was: no event is recorded, no condition or
    other status write is sent. *)
Theorem Reconcile_not_found r req σ :
  Client.GetFault (Client r) = None ->
  World.Workloads σ !! req = None ->
  Reconcile' r req σ = ((Result.empty, None), σ) /\
  recordedBetween σ (Reconcile' r req σ).2 = [] /\
  sentBetween σ (Reconcile' r req σ).2 = [] /\
  conditionsOf (Reconcile' r req σ).2 req = None.
Proof.
  intros Hfault Hnone.
  assert (Hrun : Reconcile' r req σ = ((Result.empty, None), σ)).
  { unfold Reconcile, Get. by rewrite Hfault, Hnone. }
  rewrite Hrun. cbn [snd].
  unfold recordedBetween, sentBetween, conditionsOf.
  rewrite !drop_all, Hnone. done.
Qed.

(** The requests of a cycle contain a status update only if both
    children were rendered and the server accepted both patches. *)
Lemma status_update_only_after_both_applied r req σ :
  existsb isStatusUpdate (sentBetween σ (Reconcile' r req σ).2) = true ->
  exists workload deploy deploy' service service',
    Get (Client r) req σ = inr workload /\
    renderDeployment' r workload = inr deploy /\
    Client.PatchDeploymentReply (Client r) deploy = inr deploy' /\
    renderService' r workload = inr service /\
    Client.PatchServiceReply (Client r) service = inr service'.
Proof.
  unfold Reconcile, sentBetween.
  destruct (Get (Client r) req σ) as [err|workload] eqn:Hget.
  { cbn [snd]. by rewrite drop_all. }
  destruct (renderDeployment' r workload) as [err|deploy] eqn:Hrd.
  { patch_condition. rewrite Hreq. cbn [World.record World.Requests].
    by rewrite drop_app_length. }
  unfold PatchDeployment.
  destruct (Client.PatchDeploymentReply (Client r) deploy) as [err|deploy'] eqn:Hpd.
  { patch_condition. rewrite Hreq. cbn [World.record World.send World.Requests].
    rewrite <- app_assoc. by rewrite drop_app_length. }
  destruct (renderService' r workload) as [err|service] eqn:Hrs.
  { patch_condition. rewrite Hreq.
    cbn [World.record World.send World.setDeployments World.Requests].
    rewrite <- app_assoc. by rewrite drop_app_length. }
  unfold PatchService.
  destruct (Client.PatchServiceReply (Client r) service) as [err|service'] eqn:Hps.
  { patch_condition. rewrite Hreq.
    cbn [World.record World.send World.setDeployments World.Requests].
    rewrite <- !app_assoc. by rewrite drop_app_length. }
  intros _. by exists workload, deploy, deploy', service, service'.
Qed.

(** C2: when the deployment was applied and applying the service
    fails, the cycle sends no status update, and the resource list the
    store holds for the workload (and for any other) is the one it
    held before the cycle; a status update is only ever sent by a cycle
    in which both children were applied. *)
Theorem Reconcile_partial_failure_keeps_resources
    r req σ workload deploy deploy' service err :
  Get (Client r) req σ = inr workload ->
  renderDeployment' r workload = inr deploy ->
  Client.PatchDeploymentReply (Client r) deploy = inr deploy' ->
  renderService' r workload = inr service ->
  Client.PatchServiceReply (Client r) service = inl err ->
  (forall key, resourcesOf (Reconcile' r req σ).2 key = resourcesOf σ key) /\
  existsb isStatusUpdate (sentBetween σ (Reconcile' r req σ).2) = false /\
  World.Deployments (Reconcile' r req σ).2 !! keyOf (Deployment.ObjectMeta deploy)
    = Some deploy' /\
  (forall r0 req0 σ0,
      existsb isStatusUpdate (sentBetween σ0 (Reconcile' r0 req0 σ0).2) = true ->
      exists w0 d0 d0' s0 s0',
        Get (Client r0) req0 σ0 = inr w0 /\
        renderDeployment' r0 w0 = inr d0 /\
        Client.PatchDeploymentReply (Client r0) d0 = inr d0' /\
        renderService' r0 w0 = inr s0 /\
        Client.PatchServiceReply (Client r0) s0 = inr s0').
Proof.
  intros Hget Hrd Hpd Hrs Hps.
  split; [|split; [|split]].
  - intros key. unfold Reconcile, PatchDeployment, PatchService.
    rewrite Hget, Hrd, Hpd, Hrs, Hps.
    patch_condition. by rewrite Hres.
  - destruct (existsb _ _) eqn:Hex; [|done].
    apply status_update_only_after_both_applied in Hex
      as (w0 & d0 & d0' & s0 & s0' & Hg0 & Hd0 & Hpd0 & Hs0 & Hps0).
    congruence.
  - unfold Reconcile, PatchDeployment, PatchService.
    rewrite Hget, Hrd, Hpd, Hrs, Hps.
    patch_condition. rewrite Hdep. cbn [World.record World.send World.setDeployments
      World.Deployments]. apply lookup_insert_eq.
  - apply status_update_only_after_both_applied.
Qed.

(** C5: in a cycle in which every step up to the status update
    succeeds, the resource list stored for the workload becomes
    exactly two references, whatever it held before: first to the
    deployment, then to the service, each with the API version, kind,
    name and unique identifier of the child as the server returned it.
    If the closing condition patch succeeds too, the cycle ends with
    the empty result and no error. *)
Theorem Reconcile_success_replaces_resources
    r req σ workload deploy deploy' service service' :
  wellKeyed σ ->
  Get (Client r) req σ = inr workload ->
  renderDeployment' r workload = inr deploy ->
  Client.PatchDeploymentReply (Client r) deploy = inr deploy' ->
  renderService' r workload = inr service ->
  Client.PatchServiceReply (Client r) service = inr service' ->
  Client.StatusUpdateFault (Client r) = None ->
  resourcesOf (Reconcile' r req σ).2 req =
    Some (Some
      [ {| TypedReference.APIVersion :=
             GroupVersionString (TypeMeta.APIVersion (Deployment.TypeMeta deploy'));
           TypedReference.Kind := TypeMeta.Kind (Deployment.TypeMeta deploy');
           TypedReference.Name := ObjectMeta.Name (Deployment.ObjectMeta deploy');
           TypedReference.UID := ObjectMeta.UID (Deployment.ObjectMeta deploy') |};
        {| TypedReference.APIVersion :=
             GroupVersionString (TypeMeta.APIVersion (Service.TypeMeta service'));
           TypedReference.Kind := TypeMeta.Kind (Service.TypeMeta service');
           TypedReference.Name := ObjectMeta.Name (Service.ObjectMeta service');
           TypedReference.UID := ObjectMeta.UID (Service.ObjectMeta service') |} ]) /\
  (Client.StatusPatchFault (Client r) = None ->
   (Reconcile' r req σ).1 = (Result.empty, None)).
Proof.
  intros Hwf Hget Hrd Hpd Hrs Hps Hsu.
  destruct (Get_inr _ _ _ _ Hget) as [_ Hstored].
  pose proof (Hwf _ _ Hstored) as Hkey.
  unfold Reconcile, PatchDeployment, PatchService, StatusUpdate.
  rewrite Hget, Hrd, Hpd, Hrs, Hps, Hsu.
  cbn [World.record World.send World.setDeployments World.setServices World.Workloads
       Containerized.setStatus Containerized.ObjectMeta].
  rewrite Hkey, Hstored.
  destruct (PatchCondition _ _ _ _ _) as [perr σ'] eqn:Hpc.
  cbn [fst snd]. split.
  - apply PatchCondition_inv in Hpc as (_ & _ & _ & _ & Hres).
    rewrite Hres. unfold resourcesOf. cbn [World.setWorkloads World.Workloads].
    by rewrite lookup_insert_eq.
  - intros Hsp. revert Hpc. unfold PatchCondition. cbv zeta. rewrite Hsp.
    cbn [World.send World.setWorkloads World.Workloads Containerized.setStatus
         Containerized.ObjectMeta].
    rewrite Hkey, lookup_insert_eq.
    destruct (decide _); by intros [= <- _].
Qed.

(** Rendering fails only when the ownership binder rejects the child. *)
Lemma renderDeployment_fails_by_binder r workload err :
  renderDeployment' r workload = inl err ->
  exists child, SetControllerReference workload child (Scheme_ r) = inl err.
Proof.
  unfold renderDeployment. cbv zeta.
  destruct (SetControllerReference _ _ _) as [err'|refs] eqn:Hb; [|discriminate].
  intros [= <-]. eauto.
Qed.

Lemma renderService_fails_by_binder r workload err :
  renderService' r workload = inl err ->
  exists child, SetControllerReference workload child (Scheme_ r) = inl err.
Proof.
  unfold renderService. cbv zeta.
  destruct (containersLoop _ _) as [service n].
  destruct (SetControllerReference _ _ _) as [err'|refs] eqn:Hb; [|discriminate].
  intros [= <-]. eauto.
Qed.

(** C3, as the code has it: the ownership binder runs inside the
    renderers, so its failure ends the cycle as a render failure of the
    child being bound, never as an apply failure.  When binding the
    deployment fails, the cycle records one event, a warning under
    "cannot render deployment", and sends one request, a condition patch
    that wraps the binder's error in that reason.  When binding the
    service fails after the deployment was applied, the cycle records
    the deployment's success and then a warning under "cannot render
    service", and sends the deployment patch and then a condition patch
    that wraps the binder's error in that reason.  In both cases it asks
    to be requeued. *)
Theorem Reconcile_binding_failure_is_render_failure r req σ workload err :
  Get (Client r) req σ = inr workload ->
  let σ' := (Reconcile' r req σ).2 in
  let key := keyOf (Containerized.ObjectMeta workload) in
  let conds := ContainerizedStatus.Conditions (Containerized.Status workload) in
  (renderDeployment' r workload = inl err ->
   (exists child, SetControllerReference workload child (Scheme_ r) = inl err) /\
   recordedBetween σ σ' = [Event.Warning errRenderDeployment err] /\
   sentBetween σ σ' =
     [World.StatusPatchReq key
        (SetConditions (ReconcileError (Wrap err errRenderDeployment)) conds)] /\
   ~ reportsApplyFailure σ σ' /\
   (Reconcile' r req σ).1.1 = ReconcileWaitResult) /\
  (forall deploy deploy',
      renderDeployment' r workload = inr deploy ->
      Client.PatchDeploymentReply (Client r) deploy = inr deploy' ->
      renderService' r workload = inl err ->
      (exists child, SetControllerReference workload child (Scheme_ r) = inl err) /\
      recordedBetween σ σ' =
        [deploymentCreated workload deploy'; Event.Warning errRenderService err] /\
      sentBetween σ σ' =
        [World.PatchDeploymentReq deploy (Containerized.GetUID workload);
         World.StatusPatchReq key
           (SetConditions (ReconcileError (Wrap err errRenderService)) conds)] /\
      ~ reportsApplyFailure σ σ' /\
      (Reconcile' r req σ).1.1 = ReconcileWaitResult).
Proof.
  intros Hget σ' key conds. subst σ' key conds. split.
  - intros Hrd.
    split; [by eapply renderDeployment_fails_by_binder|].
    assert (Hrec : recordedBetween σ (Reconcile' r req σ).2
                   = [Event.Warning errRenderDeployment err]).
    { unfold Reconcile. rewrite Hget, Hrd. patch_condition.
      unfold recordedBetween. rewrite Hev. cbn [World.record World.Events].
      by rewrite drop_app_length. }
    split; [exact Hrec|]. split; [|split].
    + unfold Reconcile. rewrite Hget, Hrd. patch_condition.
      unfold sentBetween. rewrite Hreq. cbn [World.record World.Requests].
      by rewrite drop_app_length.
    + intros (e & He & _ & Hreason). rewrite Hrec in He.
      apply list_elem_of_In in He. destruct He as [<- | []].
      destruct Hreason as [Hreason | Hreason]; discriminate Hreason.
    + unfold Reconcile. rewrite Hget, Hrd. by patch_condition.
  - intros deploy deploy' Hrd Hpd Hrs.
    split; [by eapply renderService_fails_by_binder|].
    assert (Hrec : recordedBetween σ (Reconcile' r req σ).2
                   = [deploymentCreated workload deploy';
                      Event.Warning errRenderService err]).
    { unfold Reconcile, PatchDeployment. rewrite Hget, Hrd, Hpd, Hrs. patch_condition.
      unfold recordedBetween. rewrite Hev.
      cbn [World.record World.send World.setDeployments World.Events].
      by rewrite <- !app_assoc, drop_app_length. }
    split; [exact Hrec|]. split; [|split].
    + unfold Reconcile, PatchDeployment. rewrite Hget, Hrd, Hpd, Hrs. patch_condition.
      unfold sentBetween. rewrite Hreq.
      cbn [World.record World.send World.setDeployments World.Requests].
      by rewrite <- !app_assoc, drop_app_length.
    + intros (e & He & Hwarn & Hreason). rewrite Hrec in He.
      apply list_elem_of_In in He. destruct He as [<- | [<- | []]].
      * discriminate Hwarn.
      * destruct Hreason as [Hreason | Hreason]; discriminate Hreason.
    + unfold Reconcile, PatchDeployment. rewrite Hget, Hrd, Hpd, Hrs.
      by patch_condition.
Qed.

(** What a cycle reports when the server rejects the service patch:
    the warning event is recorded under the reason of the deployment,
    the condition under the reason of the service. *)
Lemma Reconcile_service_apply_failure_report
    r req σ workload deploy deploy' service err :
  Get (Client r) req σ = inr workload ->
  renderDeployment' r workload = inr deploy ->
  Client.PatchDeploymentReply (Client r) deploy = inr deploy' ->
  renderService' r workload = inr service ->
  Client.PatchServiceReply (Client r) service = inl err ->
  List.filter isWarning (recordedBetween σ (Reconcile' r req σ).2)
    = [Event.Warning errApplyDeployment err] /\
  last (sentBetween σ (Reconcile' r req σ).2)
    = Some (World.StatusPatchReq (keyOf (Containerized.ObjectMeta workload))
              (SetConditions (ReconcileError (Wrap err errApplyService))
                 (ContainerizedStatus.Conditions (Containerized.Status workload)))) /\
  (Reconcile' r req σ).1.1 = ReconcileWaitResult.
Proof.
  intros Hget Hrd Hpd Hrs Hps.
  unfold Reconcile, PatchDeployment, PatchService.
  rewrite Hget, Hrd, Hpd, Hrs, Hps. patch_condition.
  unfold recordedBetween, sentBetween. rewrite Hev, Hreq.
  cbn [World.record World.send World.setDeployments World.Events World.Requests].
  rewrite <- !app_assoc, !drop_app_length. repeat split.
Qed.

(** C7, as the code has it: [renderDeployment] passes every label and
    annotation of the workload on to the deployment and to its pod
    template, and the component-name label of the pod template and of
    the selector keeps the workload's name even when the workload
    carries a label under that key; [renderService] passes none of them
    on: the service carries the component-name label only, and no
    annotation. *)
Theorem render_label_annotation_propagation r workload deploy service :
  renderDeployment' r workload = inr deploy ->
  renderService' r workload = inr service ->
  let template := DeploymentSpec.Template (Deployment.Spec deploy) in
  (forall k v, Containerized.GetLabels workload !! k = Some v ->
               ObjectMeta.Labels (Deployment.ObjectMeta deploy) !! k = Some v) /\
  (forall k v, Containerized.GetAnnotations workload !! k = Some v ->
               ObjectMeta.Annotations (Deployment.ObjectMeta deploy) !! k = Some v) /\
  (forall k v, Containerized.GetLabels workload !! k = Some v ->
               k <> labelNameKey ->
               ObjectMeta.Labels (PodTemplateSpec.ObjectMeta template) !! k = Some v) /\
  (forall k v, Containerized.GetAnnotations workload !! k = Some v ->
               ObjectMeta.Annotations (PodTemplateSpec.ObjectMeta template) !! k
                 = Some v) /\
  ObjectMeta.Labels (PodTemplateSpec.ObjectMeta template) !! labelNameKey
    = Some (Containerized.GetName workload) /\
  DeploymentSpec.Selector (Deployment.Spec deploy) =
    Some {| LabelSelector.MatchLabels :=
              {[ labelNameKey := Containerized.GetName workload ]} |} /\
  ObjectMeta.Labels (Service.ObjectMeta service) =
    {[ labelNameKey := Containerized.GetName workload ]} /\
  ObjectMeta.Annotations (Service.ObjectMeta service) = ∅.
Proof.
  intros Hrd Hrs template. subst template.
  destruct (renderDeployment_spec _ _ _ Hrd) as (_ & _ & _ & -> & -> & ->).
  destruct (renderService_spec _ _ _ Hrs) as (_ & _ & _ & _ & -> & ->).
  cbn [DeploymentSpec.Template DeploymentSpec.Selector PodTemplateSpec.ObjectMeta
       ObjectMeta.Labels ObjectMeta.Annotations].
  rewrite !(left_id_L ∅ (∪)).
  repeat split; try done.
  - intros k v Hk Hne. rewrite lookup_union_r; [done|].
    by apply lookup_singleton_ne.
  - apply lookup_union_Some_l, lookup_singleton_eq.
Qed.

End Properties.

(** ** The properties on the concrete runtime *)

Lemma Sample_world_wellKeyed ws : wellKeyed (Sample.world ws).
Proof.
  intros key w Hlook. unfold Sample.world in Hlook. cbn [World.Workloads] in Hlook.
  apply elem_of_list_to_map_2 in Hlook.
  apply list_elem_of_In, in_map_iff in Hlook as (w' & [= <- <-] & _).
  reflexivity.
Qed.

Example GroupVersionString_children :
  GroupVersionString deploymentAPIVersion = "apps/v1" /\
  GroupVersionString serviceAPIVersion = "v1".
Proof. split; reflexivity. Qed.

Lemma renderService_one_port_per_declared_port_witness :
  exists service ports,
    renderService Sample.bind (Sample.reconciler Sample.healthy) Sample.threePorts
      = inr service /\
    ServiceSpec.Ports (Service.Spec service) = Some ports /\
    map (fun sp => (ServicePort.Port sp, ServicePort.TargetPort sp)) ports
      = [(8080, IntOrString.Int 80); (8081, IntOrString.Int 81);
         (8082, IntOrString.Int 443)].
Proof.
  eexists.
  edestruct (renderService_one_port_per_declared_port Sample.bind
               (Sample.reconciler Sample.healthy) Sample.threePorts)
    as (ports & Hports & _ & _ & Hexample); [reflexivity|].
  exists ports. split; [reflexivity|]. split; [exact Hports|].
  apply Hexample. reflexivity.
Defined.

Lemma renderService_clusterIP_ports_allocated_witness :
  exists service,
    renderService Sample.bind (Sample.reconciler Sample.healthy) Sample.idle = inr service /\
    ServiceSpec.Type_ (Service.Spec service) = ServiceTypeClusterIP /\
    ServiceSpec.Ports (Service.Spec service) = Some [].
Proof.
  eexists.
  edestruct (renderService_clusterIP_ports_allocated Sample.bind
               (Sample.reconciler Sample.healthy) Sample.idle)
    as (Htype & _ & Hempty); [reflexivity|].
  split; [reflexivity|]. split; [exact Htype|].
  apply Hempty. intros c Hc.
  apply list_elem_of_In in Hc. simpl in Hc.
  destruct Hc as [<- | [<- | []]]; reflexivity.
Defined.

Lemma renderDeployment_replicas_template_selector_witness :
  exists deploy,
    renderDeployment Sample.bind (Sample.reconciler Sample.healthy) Sample.relabelled
      = inr deploy /\
    Containerized.GetLabels Sample.relabelled !! labelNameKey = Some "other" /\
    DeploymentSpec.Replicas (Deployment.Spec deploy) = Some 3 /\
    DeploymentSpec.Selector (Deployment.Spec deploy) =
      Some {| LabelSelector.MatchLabels := {[ labelNameKey := "web" ]} |} /\
    ObjectMeta.Labels
      (PodTemplateSpec.ObjectMeta (DeploymentSpec.Template (Deployment.Spec deploy)))
      !! labelNameKey = Some "web".
Proof.
  eexists.
  edestruct (renderDeployment_replicas_template_selector Sample.bind
               (Sample.reconciler Sample.healthy) Sample.relabelled)
    as (Hreplicas & _ & Hselector & Hlabel); [reflexivity|].
  split; [reflexivity|]. split; [reflexivity|].
  split; [exact Hreplicas|]. split; [exact Hselector | exact Hlabel].
Defined.

Lemma renderDeployment_selector_unique_witness :
  exists da db,
    renderDeployment Sample.bind (Sample.reconciler Sample.healthy) Sample.web = inr da /\
    renderDeployment Sample.bind (Sample.reconciler Sample.healthy) Sample.threePorts
      = inr db /\
    DeploymentSpec.Selector (Deployment.Spec da) <>
    DeploymentSpec.Selector (Deployment.Spec db).
Proof.
  eexists. eexists. split; [reflexivity|]. split; [reflexivity|].
  apply (renderDeployment_selector_unique Sample.bind (Sample.reconciler Sample.healthy)
           Sample.web Sample.threePorts); [reflexivity | reflexivity | discriminate].
Defined.

Lemma Reconcile_not_found_witness :
  Sample.run Sample.healthy [Sample.idle] ("default", "web")
    = ((Result.empty, None), Sample.world [Sample.idle]).
Proof.
  apply (Reconcile_not_found Sample.bind Sample.noParent Sample.waitResult
           Sample.errUpdateStatus (Sample.reconciler Sample.healthy) ("default", "web")
           (Sample.world [Sample.idle])); reflexivity.
Defined.

Lemma Reconcile_partial_failure_keeps_resources_witness :
  let σ := Sample.world [Sample.webApplied] in
  let σ' := (Sample.run Sample.serviceDown [Sample.webApplied] ("default", "web")).2 in
  resourcesOf σ' ("default", "web") = Some (Some Sample.earlier) /\
  existsb isStatusUpdate (sentBetween σ σ') = false /\
  is_Some (World.Deployments σ' !! ("default", "web")).
Proof.
  intros σ σ'.
  edestruct (Reconcile_partial_failure_keeps_resources Sample.bind Sample.noParent
               Sample.waitResult Sample.errUpdateStatus
               (Sample.reconciler Sample.serviceDown) ("default", "web") σ)
    as (Hres & Hsent & Hdeploy & _); [reflexivity..|].
  split; [|split].
  - etransitivity; [exact (Hres ("default", "web")) | reflexivity].
  - exact Hsent.
  - eexists. exact Hdeploy.
Defined.

Lemma Reconcile_success_replaces_resources_witness :
  let σ' := (Sample.run Sample.healthy [Sample.webApplied] ("default", "web")).2 in
  resourcesOf (Sample.world [Sample.webApplied]) ("default", "web")
    = Some (Some Sample.earlier) /\
  resourcesOf σ' ("default", "web") =
    Some (Some
      [ {| TypedReference.APIVersion := "apps/v1"; TypedReference.Kind := "Deployment";
           TypedReference.Name := "web"; TypedReference.UID := "uid-deployment" |};
        {| TypedReference.APIVersion := "v1"; TypedReference.Kind := "Service";
           TypedReference.Name := "web"; TypedReference.UID := "uid-service" |} ]).
Proof.
  intros σ'. split; [reflexivity|].
  edestruct (Reconcile_success_replaces_resources Sample.bind Sample.noParent
               Sample.waitResult Sample.errUpdateStatus
               (Sample.reconciler Sample.healthy) ("default", "web")
               (Sample.world [Sample.webApplied]))
    as (Hres & _); [apply Sample_world_wellKeyed | reflexivity..|].
  unfold σ'. etransitivity; [exact Hres|]. reflexivity.
Defined.

Lemma Reconcile_binding_failure_is_render_failure_witness :
  (let σ := Sample.world [Sample.unsaved] in
   let out := Sample.run Sample.healthy [Sample.unsaved] ("default", "web") in
   recordedBetween σ out.2
     = [Event.Warning errRenderDeployment
          (ErrorString "owner has no unique identifier")] /\
   out.1.1 = Sample.waitResult) /\
  (let σ := Sample.world [Sample.web] in
   let out := Reconcile Sample.bindUnlabelled Sample.noParent Sample.waitResult
                Sample.errUpdateStatus (Sample.reconciler Sample.healthy)
                ("default", "web") σ in
   Event.Reason <$> recordedBetween σ out.2 = ["Deployment created"; errRenderService] /\
   isDeploymentPatch <$> sentBetween σ out.2 = [true; false] /\
   out.1.1 = Sample.waitResult).
Proof.
  split.
  - intros σ out.
    destruct (Reconcile_binding_failure_is_render_failure Sample.bind Sample.noParent
                Sample.waitResult Sample.errUpdateStatus
                (Sample.reconciler Sample.healthy) ("default", "web") σ Sample.unsaved
                (ErrorString "owner has no unique identifier") eq_refl)
      as [Hdeployment _].
    destruct (Hdeployment eq_refl) as (_ & Hrec & _ & _ & Hout).
    split; [exact Hrec | exact Hout].
  - intros σ out.
    destruct (Reconcile_binding_failure_is_render_failure Sample.bindUnlabelled
                Sample.noParent Sample.waitResult Sample.errUpdateStatus
                (Sample.reconciler Sample.healthy) ("default", "web") σ Sample.web
                (ErrorString "child cannot be owned by this owner") eq_refl)
      as [_ Hservice].
    edestruct Hservice as (_ & Hrec & Hsent & _ & Hout); [reflexivity..|].
    split; [|split; [|exact Hout]].
    + unfold out. rewrite Hrec. reflexivity.
    + unfold out. rewrite Hsent. reflexivity.
Defined.

Lemma render_label_annotation_propagation_witness :
  exists deploy service,
    renderDeployment Sample.bind (Sample.reconciler Sample.healthy) Sample.relabelled
      = inr deploy /\
    renderService Sample.bind (Sample.reconciler Sample.healthy) Sample.relabelled
      = inr service /\
    ObjectMeta.Labels (Deployment.ObjectMeta deploy) !! "app" = Some "shop" /\
    ObjectMeta.Labels
      (PodTemplateSpec.ObjectMeta (DeploymentSpec.Template (Deployment.Spec deploy)))
      !! labelNameKey = Some "web" /\
    ObjectMeta.Labels (Service.ObjectMeta service) = {[ labelNameKey := "web" ]}.
Proof.
  eexists. eexists.
  edestruct (render_label_annotation_propagation Sample.bind
               (Sample.reconciler Sample.healthy) Sample.relabelled)
    as (Hlabels & _ & _ & _ & Hname & _ & Hservice & _); [reflexivity..|].
  split; [reflexivity|]. split; [reflexivity|].
  split; [apply Hlabels; reflexivity|]. split; [exact Hname | exact Hservice].
Defined.

(** ** Where the code departs from the specification *)

(** C3 as stated fails: a workload without unique identifier makes the
    binder fail; the cycle records a single warning, under the render
    reason, and patches a condition that wraps the render reason:
    nothing in the cycle carries an apply reason. *)
Lemma binding_failure_is_not_an_apply_failure :
  let key := ("default", "web") in
  let σ := Sample.world [Sample.unsaved] in
  let σ' := (Sample.run Sample.healthy [Sample.unsaved] key).2 in
  renderDeployment Sample.bind (Sample.reconciler Sample.healthy) Sample.unsaved
    = inl (ErrorString "owner has no unique identifier") /\
  recordedBetween σ σ'
    = [Event.Warning "cannot render deployment"
         (ErrorString "owner has no unique identifier")] /\
  map Condition.Message <$> conditionsOf σ' key
    = Some ["cannot render deployment: owner has no unique identifier"] /\
  ~ reportsApplyFailure σ σ'.
Proof.
  intros key σ σ'.
  assert (Hrec : recordedBetween σ σ'
                 = [Event.Warning "cannot render deployment"
                      (ErrorString "owner has no unique identifier")])
    by (vm_compute; reflexivity).
  split; [reflexivity|]. split; [exact Hrec|]. split; [vm_compute; reflexivity|].
  intros (e & He & _ & Hreason). rewrite Hrec in He.
  apply list_elem_of_In in He. destruct He as [<- | []].
  destruct Hreason as [Hreason | Hreason]; discriminate Hreason.
Qed.

(** C7 as stated fails for the service: the labels and annotations of
    the workload are not on the service [renderService] returns. *)
Lemma renderService_drops_labels_and_annotations :
  exists service,
    renderService Sample.bind (Sample.reconciler Sample.healthy) Sample.web = inr service /\
    Containerized.GetLabels Sample.web !! "app" = Some "shop" /\
    ObjectMeta.Labels (Service.ObjectMeta service) !! "app" = None /\
    Containerized.GetAnnotations Sample.web !! "description"
      = Some "declared by the user" /\
    ObjectMeta.Annotations (Service.ObjectMeta service) !! "description" = None.
Proof.
  eexists. split; [reflexivity|]. repeat split; vm_compute; reflexivity.
Qed.

(** C9 on the code: when the server rejects the service patch, the
    cycle asks to be requeued and patches a condition under the reason
    of the service, but the warning event it records carries the reason
    of the deployment. *)
Lemma service_apply_failure_warns_about_deployment :
  let key := ("default", "web") in
  let σ := Sample.world [Sample.web] in
  let out := Sample.run Sample.serviceDown [Sample.web] key in
  out.1 = (Sample.waitResult, None) /\
  List.filter isWarning (recordedBetween σ out.2)
    = [Event.Warning errApplyDeployment (ErrorString "the server is unreachable")] /\
  conditionsOf out.2 key
    = Some [ReconcileError (Wrap (ErrorString "the server is unreachable")
                              errApplyService)] /\
  errApplyDeployment <> errApplyService.
Proof.
  intros key σ out. repeat split; try (vm_compute; reflexivity). discriminate.
Qed.


(** * Further properties of the renderers *)

Lemma wrap32_inj_near a b :
  wrap32 a = wrap32 b -> - 2 ^ 32 < a - b < 2 ^ 32 -> a = b.
Proof.
  unfold wrap32. intros Heq Hnear.
  assert (Hmod : (a + 2 ^ 31) `mod` 2 ^ 32 = (b + 2 ^ 31) `mod` 2 ^ 32) by lia.
  pose proof (Z.div_mod (a + 2 ^ 31) (2 ^ 32) ltac:(lia)) as Ha.
  pose proof (Z.div_mod (b + 2 ^ 31) (2 ^ 32) ltac:(lia)) as Hb.
  rewrite Hmod in Ha. lia.
Qed.

Lemma exposed_ports_lookup (declaredList : list ContainerPort.t) (i : nat) sp :
  imap exposed declaredList !! i = Some sp ->
  ServicePort.Port sp = wrap32 (8080 + Z.of_nat i) /\ (i < length declaredList)%nat.
Proof.
  rewrite list_lookup_imap. destruct (declaredList !! i) as [port|] eqn:Hi; [|done].
  intros [= <-]. split; [done|]. by eapply lookup_lt_Some.
Qed.

Section Renderers.

Context {Scheme : Type}.
Variable SetControllerReference :
  Containerized.t -> ObjectMeta.t -> Scheme -> error + list OwnerReference.t.

Implicit Types (r : ContainerizedReconciler Scheme).

Local Abbreviation renderDeployment' := (renderDeployment SetControllerReference).
Local Abbreviation renderService' := (renderService SetControllerReference).

(** X10: the children select each other's pods.  Every label the
    deployment's selector asks for is carried, with the same value, by
    the pod template of the deployment, and the service selects on
    exactly the labels of the deployment's selector. *)
Theorem rendered_selectors_match_pod_template r workload deploy service :
  renderDeployment' r workload = inr deploy ->
  renderService' r workload = inr service ->
  exists selector,
    DeploymentSpec.Selector (Deployment.Spec deploy) = Some selector /\
    LabelSelector.MatchLabels selector ⊆
      ObjectMeta.Labels
        (PodTemplateSpec.ObjectMeta (DeploymentSpec.Template (Deployment.Spec deploy))) /\
    ServiceSpec.Selector (Service.Spec service) = LabelSelector.MatchLabels selector.
Proof.
  intros Hrd Hrs.
  destruct (renderDeployment_spec _ _ _ _ Hrd) as (_ & _ & _ & _ & _ & ->).
  destruct (renderService_spec _ _ _ _ Hrs) as (_ & -> & _).
  eexists. split; [reflexivity|].
  cbn [LabelSelector.MatchLabels DeploymentSpec.Template PodTemplateSpec.ObjectMeta
       ObjectMeta.Labels ServiceSpec.Selector].
  split; [apply map_union_subseteq_l | reflexivity].
Qed.

(** X11: as long as a workload declares at most 2^32 container ports,
    no two ports of the rendered service are exposed under the same
    number. *)
Theorem renderService_ports_distinct r workload service :
  renderService' r workload = inr service ->
  Z.of_nat (length (declaredPorts workload)) <= 2 ^ 32 ->
  exists ports,
    ServiceSpec.Ports (Service.Spec service) = Some ports /\
    NoDup (map ServicePort.Port ports).
Proof.
  intros Hrs Hlen.
  destruct (renderService_spec _ _ _ _ Hrs) as (_ & -> & _).
  eexists. split; [reflexivity|].
  apply NoDup_alt. intros i j n Hi Hj.
  rewrite list_lookup_fmap in Hi, Hj.
  destruct (imap exposed _ !! i) as [spi|] eqn:Hspi; [|done].
  destruct (imap exposed _ !! j) as [spj|] eqn:Hspj; [|done].
  apply exposed_ports_lookup in Hspi as [Hpi Hli], Hspj as [Hpj Hlj].
  injection Hi as <-. injection Hj as Hj.
  rewrite Hpi, Hpj in Hj.
  apply wrap32_inj_near in Hj; lia.
Qed.

(** X12: the exposed port numbers are not bounded by the range of
    valid ports.  The first 57456 ports of the rendered service are
    numbered within 8080..65535; the next one, if the workload declares
    that many, is numbered 65536. *)
Theorem renderService_port_numbers_range r workload service :
  renderService' r workload = inr service ->
  exists ports,
    ServiceSpec.Ports (Service.Spec service) = Some ports /\
    (forall (i : nat) sp,
        ports !! i = Some sp -> Z.of_nat i < 57456 ->
        8080 <= ServicePort.Port sp <= 65535) /\
    (forall (i : nat) sp,
        ports !! i = Some sp -> Z.of_nat i = 57456 -> ServicePort.Port sp = 65536).
Proof.
  intros Hrs.
  destruct (renderService_spec _ _ _ _ Hrs) as (_ & -> & _).
  eexists. split; [reflexivity|]. split.
  - intros i sp Hsp Hi. apply exposed_ports_lookup in Hsp as [-> _].
    rewrite wrap32_id by (unfold in_int32; lia). lia.
  - intros i sp Hsp Hi. apply exposed_ports_lookup in Hsp as [-> _].
    rewrite wrap32_id by (unfold in_int32; lia). lia.
Qed.

(** X13: a renderer fails only in the ownership binder.  The error it
    returns is the one the binder gave for a child that has the name and
    the namespace of the workload and no owner reference yet. *)
Theorem render_failure_is_binder_failure r workload err :
  renderDeployment' r workload = inl err \/ renderService' r workload = inl err ->
  exists child,
    ObjectMeta.Name child = Containerized.GetName workload /\
    ObjectMeta.Namespace child = Containerized.GetNamespace workload /\
    ObjectMeta.OwnerReferences child = [] /\
    SetControllerReference workload child (Scheme_ r) = inl err.
Proof.
  intros [Hrd | Hrs].
  - revert Hrd. unfold renderDeployment. cbv zeta.
    destruct (SetControllerReference _ _ _) as [err'|refs] eqn:Hb; [|discriminate].
    intros [= <-]. eexists. split; [|split; [|split; [|exact Hb]]]; reflexivity.
  - revert Hrs. unfold renderService.
    match goal with
    | |- context [containersLoop ?cs (?s, 8080)] =>
        change (containersLoop cs (s, 8080))
          with (containersLoop cs (withPorts [] s, wrap32 (8080 + Z.of_nat 0)));
        rewrite (containersLoop_spec cs s [] 0)
    end.
    cbv zeta.
    destruct (SetControllerReference _ _ _) as [err'|refs] eqn:Hb; [|discriminate].
    intros [= <-]. eexists. split; [|split; [|split; [|exact Hb]]]; reflexivity.
Qed.

(** X14: when the binder accepts every child that has the name and the
    namespace of the workload, both renderers return a child, and each
    child carries exactly the owner references the binder gave. *)
Theorem render_succeeds_when_binder_accepts r workload :
  (forall child,
      ObjectMeta.Name child = Containerized.GetName workload ->
      ObjectMeta.Namespace child = Containerized.GetNamespace workload ->
      exists refs, SetControllerReference workload child (Scheme_ r) = inr refs) ->
  exists deploy service,
    renderDeployment' r workload = inr deploy /\
    renderService' r workload = inr service /\
    SetControllerReference workload
      (ObjectMeta.setOwnerReferences [] (Deployment.ObjectMeta deploy)) (Scheme_ r)
      = inr (ObjectMeta.OwnerReferences (Deployment.ObjectMeta deploy)) /\
    SetControllerReference workload
      (ObjectMeta.setOwnerReferences [] (Service.ObjectMeta service)) (Scheme_ r)
      = inr (ObjectMeta.OwnerReferences (Service.ObjectMeta service)).
Proof.
  intros Haccepts.
  unfold renderDeployment, renderService.
  match goal with
  | |- context [containersLoop ?cs (?s, 8080)] =>
      change (containersLoop cs (s, 8080))
        with (containersLoop cs (withPorts [] s, wrap32 (8080 + Z.of_nat 0)));
      rewrite (containersLoop_spec cs s [] 0)
  end.
  cbv zeta.
  match goal with
  | |- context [SetControllerReference workload ?child (Scheme_ r)] =>
      destruct (Haccepts child eq_refl eq_refl) as [drefs Hd]; rewrite Hd
  end.
  match goal with
  | |- context [match SetControllerReference workload ?child (Scheme_ r) with _ => _ end] =>
      destruct (Haccepts child eq_refl eq_refl) as [srefs Hs]; rewrite Hs
  end.
  eexists. eexists. split; [reflexivity|]. split; [reflexivity|].
  split; [exact Hd | exact Hs].
Qed.

End Renderers.

(** * Further properties of the cycle *)

(** Setting a condition twice is setting it once. *)
Lemma SetConditions_idempotent c conds :
  SetConditions c (SetConditions c conds) = SetConditions c conds.
Proof.
  unfold SetConditions.
  set (same := fun e : Condition.t =>
                 bool_decide (Condition.Type_ e = Condition.Type_ c)).
  set (put := fun e : Condition.t =>
                if bool_decide (Condition.Type_ e = Condition.Type_ c) then c else e).
  assert (Hput : forall e, put (put e) = put e).
  { intros e. unfold put.
    destruct (bool_decide (Condition.Type_ e = Condition.Type_ c)) eqn:He;
      [|by rewrite He].
    clear He. by destruct (bool_decide (Condition.Type_ c = Condition.Type_ c)). }
  destruct (existsb same conds) eqn:Hex.
  - assert (Hex' : existsb same (map put conds) = true).
    { apply existsb_exists in Hex as (e & He & Hsame).
      apply existsb_exists. exists (put e). split; [by apply in_map|].
      unfold put. unfold same in Hsame. rewrite Hsame.
      unfold same. by apply bool_decide_eq_true_2. }
    rewrite Hex'. rewrite map_map. apply map_ext. intros e. apply Hput.
  - assert (Hex' : existsb same (conds ++ [c]) = true).
    { rewrite existsb_app. cbn [existsb]. unfold same at 2.
      rewrite bool_decide_eq_true_2 by done. by rewrite !orb_true_r. }
    rewrite Hex'. rewrite map_app. f_equal.
    + rewrite <- (map_id conds) at 2. apply map_ext_in. intros e He.
      unfold put. destruct (bool_decide _) eqn:Hsame; [|done].
      assert (existsb same conds = true) by (apply existsb_exists; eauto).
      congruence.
    + cbn [map]. unfold put. by rewrite bool_decide_eq_true_2.
Qed.

Section Cycle.

Context {Scheme : Type}.
Variable SetControllerReference :
  Containerized.t -> ObjectMeta.t -> Scheme -> error + list OwnerReference.t.
Variable LocateParentAppConfig :
  World.t -> Containerized.t -> option ObjectMeta.t * option error.
Variable ReconcileWaitResult : Result.t.
Variable errUpdateStatus : string.

Implicit Types (r : ContainerizedReconciler Scheme) (σ : World.t).

Local Abbreviation renderDeployment' := (renderDeployment SetControllerReference).
Local Abbreviation renderService' := (renderService SetControllerReference).
Local Abbreviation PatchCondition' := (PatchCondition errUpdateStatus).
Local Abbreviation Reconcile' :=
  (Reconcile SetControllerReference LocateParentAppConfig ReconcileWaitResult
     errUpdateStatus).
Local Abbreviation target := (eventTarget LocateParentAppConfig).

(** What [PatchCondition] leaves alone in the stored workloads: what was
    declared of each, and every workload but the patched one. *)
Lemma PatchCondition_frame r workload condition σ perr σ' :
  PatchCondition' r workload condition σ = (perr, σ') ->
  (forall key, declaredOf σ' key = declaredOf σ key) /\
  (forall key, key <> keyOf (Containerized.ObjectMeta workload) ->
               World.Workloads σ' !! key = World.Workloads σ !! key).
Proof.
  unfold PatchCondition. cbv zeta.
  destruct (Client.StatusPatchFault (Client r)) as [err|].
  { intros [= <- <-]. by split. }
  cbn [World.send World.Workloads].
  destruct (World.Workloads σ !! keyOf (Containerized.ObjectMeta workload))
    as [stored|] eqn:Hstored.
  2: { intros [= <- <-]. by split. }
  destruct (decide _).
  { intros [= <- <-]. by split. }
  intros [= <- <-]. split.
  - intros key. unfold declaredOf. cbn [World.setWorkloads World.Workloads].
    destruct (decide (keyOf (Containerized.ObjectMeta workload) = key)) as [<-|Hne].
    + by rewrite lookup_insert_eq, Hstored.
    + by rewrite lookup_insert_ne.
  - intros key Hne. cbn [World.setWorkloads World.Workloads].
    by rewrite lookup_insert_ne.
Qed.

(** Runs the condition patch that closes a branch of the cycle. *)
Ltac closing_patch :=
  match goal with
  | |- context [PatchCondition ?e ?r ?w ?c ?s] =>
      let perr := fresh "perr" in
      let σ' := fresh "σ'" in
      let Hpc := fresh "Hpc" in
      destruct (PatchCondition e r w c s) as [perr σ'] eqn:Hpc;
      pose proof (PatchCondition_inv _ _ _ _ _ _ _ Hpc)
        as (Hev & Hreq & Hdep & Hsvc & Hres);
      pose proof (PatchCondition_frame _ _ _ _ _ _ Hpc) as (Hdecl & Hother);
      cbn [fst snd]
  end.

(** Splits a cycle into its seven ways through [Reconcile]. *)
Ltac split_cycle r req σ :=
  unfold Reconcile, PatchDeployment, PatchService, StatusUpdate;
  destruct (Get (Client r) req σ) as [gerr|workload] eqn:Hget;
  [| destruct (renderDeployment' r workload) as [rderr|deploy] eqn:Hrd;
     [| destruct (Client.PatchDeploymentReply (Client r) deploy)
          as [pderr|deploy'] eqn:Hpd;
        [| destruct (renderService' r workload) as [rserr|service] eqn:Hrs;
           [| destruct (Client.PatchServiceReply (Client r) service)
                as [pserr|service'] eqn:Hps;
              [| destruct (Client.StatusUpdateFault (Client r)) as [suerr|] eqn:Hsu;
                 [| cbn [World.record World.send World.setDeployments
                         World.setServices World.Workloads Containerized.setStatus
                         Containerized.ObjectMeta];
                    destruct (World.Workloads σ
                                !! keyOf (Containerized.ObjectMeta workload))
                      as [stored|] eqn:Hstored ]]]]]];
  try closing_patch.

Ltac simpl_world :=
  cbn [fst snd World.record World.send World.setDeployments World.setServices
       World.setWorkloads World.Workloads World.Deployments World.Services
       World.Events World.Requests] in *.

(** X1: a failure of the read other than "not found" ends the cycle at
    once: the error is returned as it is, with the empty result, and the
    world is left as it was, whether the store has the workload or not. *)
Theorem Reconcile_get_failure r req σ err :
  Client.GetFault (Client r) = Some err ->
  IsNotFound err = false ->
  Reconcile' r req σ = ((Result.empty, Some err), σ).
Proof.
  intros Hfault Hother. unfold Reconcile, Get, IgnoreNotFound.
  by rewrite Hfault, Hother.
Qed.

(** X2: when the server rejects the deployment patch, the cycle stops
    there.  It has sent the deployment patch, under the workload's
    identifier as field owner, and a condition patch that wraps the error
    in the deployment's apply reason, and nothing else; it records one
    warning under that reason; it asks to be requeued; the stored
    children are untouched. *)
Theorem Reconcile_deployment_apply_failure r req σ workload deploy err :
  Get (Client r) req σ = inr workload ->
  renderDeployment' r workload = inr deploy ->
  Client.PatchDeploymentReply (Client r) deploy = inl err ->
  let σ' := (Reconcile' r req σ).2 in
  (Reconcile' r req σ).1.1 = ReconcileWaitResult /\
  recordedOn σ σ' = [(target σ workload, Event.Warning errApplyDeployment err)] /\
  sentBetween σ σ' =
    [ World.PatchDeploymentReq deploy (Containerized.GetUID workload);
      World.StatusPatchReq (keyOf (Containerized.ObjectMeta workload))
        (SetConditions (ReconcileError (Wrap err errApplyDeployment))
           (ContainerizedStatus.Conditions (Containerized.Status workload))) ] /\
  World.Deployments σ' = World.Deployments σ /\
  World.Services σ' = World.Services σ.
Proof.
  intros Hget Hrd Hpd σ'. subst σ'.
  unfold Reconcile, PatchDeployment. rewrite Hget, Hrd, Hpd. closing_patch.
  unfold recordedOn, sentBetween. rewrite Hev, Hreq, Hdep, Hsvc. simpl_world.
  rewrite <- !app_assoc, !drop_app_length. repeat split.
Qed.

(** X3: when both children were applied and the status update fails,
    the cycle returns that error as it is and asks to be requeued; it
    records no warning and patches no condition; the stored workloads
    are as before, and both children are in the store. *)
Theorem Reconcile_status_update_failure
    r req σ workload deploy deploy' service service' err :
  Get (Client r) req σ = inr workload ->
  renderDeployment' r workload = inr deploy ->
  Client.PatchDeploymentReply (Client r) deploy = inr deploy' ->
  renderService' r workload = inr service ->
  Client.PatchServiceReply (Client r) service = inr service' ->
  Client.StatusUpdateFault (Client r) = Some err ->
  let σ' := (Reconcile' r req σ).2 in
  (Reconcile' r req σ).1 = (ReconcileWaitResult, Some err) /\
  List.filter isWarning (recordedBetween σ σ') = [] /\
  existsb isStatusPatch (sentBetween σ σ') = false /\
  World.Workloads σ' = World.Workloads σ /\
  World.Deployments σ' !! keyOf (Deployment.ObjectMeta deploy) = Some deploy' /\
  World.Services σ' !! keyOf (Service.ObjectMeta service) = Some service'.
Proof.
  intros Hget Hrd Hpd Hrs Hps Hsu σ'. subst σ'.
  unfold Reconcile, PatchDeployment, PatchService, StatusUpdate.
  rewrite Hget, Hrd, Hpd, Hrs, Hps, Hsu.
  unfold recordedBetween, sentBetween. simpl_world.
  rewrite <- !app_assoc, !drop_app_length.
  repeat split; apply lookup_insert_eq.
Qed.

(** X4: a cycle in which every step succeeds records exactly two
    events, both normal, the deployment's before the service's, and
    sends exactly four requests in this order: the deployment patch and
    the service patch, both under the workload's identifier as field
    owner, the status update, and the patch of the success condition. *)
Theorem Reconcile_success_trace r req σ workload deploy deploy' service service' :
  wellKeyed σ ->
  Get (Client r) req σ = inr workload ->
  renderDeployment' r workload = inr deploy ->
  Client.PatchDeploymentReply (Client r) deploy = inr deploy' ->
  renderService' r workload = inr service ->
  Client.PatchServiceReply (Client r) service = inr service' ->
  Client.StatusUpdateFault (Client r) = None ->
  let σ' := (Reconcile' r req σ).2 in
  recordedOn σ σ' =
    [ (target σ workload, deploymentCreated workload deploy');
      (target σ workload, serviceCreated workload service') ] /\
  exists updated,
    declared updated = declared workload /\
    sentBetween σ σ' =
      [ World.PatchDeploymentReq deploy (Containerized.GetUID workload);
        World.PatchServiceReq service (Containerized.GetUID workload);
        World.StatusUpdateReq updated;
        World.StatusPatchReq req
          (SetConditions ReconcileSuccess
             (ContainerizedStatus.Conditions (Containerized.Status workload))) ].
Proof.
  intros Hwf Hget Hrd Hpd Hrs Hps Hsu σ'. subst σ'.
  destruct (Get_inr _ _ _ _ Hget) as [_ Hstored].
  pose proof (Hwf _ _ Hstored) as Hkey.
  unfold Reconcile, PatchDeployment, PatchService, StatusUpdate.
  rewrite Hget, Hrd, Hpd, Hrs, Hps, Hsu.
  cbn [World.record World.send World.setDeployments World.setServices World.Workloads
       Containerized.setStatus Containerized.ObjectMeta].
  rewrite Hkey, Hstored. closing_patch.
  unfold recordedOn, sentBetween. rewrite Hev, Hreq. simpl_world.
  cbn [Containerized.setStatus Containerized.ObjectMeta Containerized.Status
       ContainerizedStatus.Conditions].
  rewrite Hkey, <- !app_assoc, !drop_app_length.
  split; [reflexivity|]. eexists. split; [|reflexivity]. reflexivity.
Qed.

(** X5: every event a cycle records is recorded against the same
    object: the parent application configuration when one was located,
    the workload itself otherwise. *)
Theorem Reconcile_events_on_one_target r req σ w :
  Get (Client r) req σ = inr w ->
  Forall (fun oe => oe.1 = target σ w) (recordedOn σ (Reconcile' r req σ).2).
Proof.
  intros Hfound. unfold recordedOn. split_cycle r req σ;
    [discriminate Hfound|..];
    try rewrite Hev; simpl_world; injection Hfound as <-;
    rewrite <- ?app_assoc, ?drop_app_length, ?drop_all;
    repeat constructor.
Qed.

(** X6: a cycle never creates or deletes a workload and never changes
    what was declared of one: under every key, the type, the metadata
    and the specification of the stored workload are as before. *)
Theorem Reconcile_keeps_declared r req σ key :
  declaredOf (Reconcile' r req σ).2 key = declaredOf σ key.
Proof.
  split_cycle r req σ; try rewrite Hdecl; try reflexivity.
  unfold declaredOf. simpl_world.
  destruct (decide (keyOf (Containerized.ObjectMeta workload) = key)) as [<-|Hne].
  - by rewrite lookup_insert_eq, Hstored.
  - by rewrite lookup_insert_ne.
Qed.

(** X7: on a store that keeps every workload under its own namespace
    and name, a cycle touches nothing that is stored under another key
    than the one it reconciles: no workload, no deployment, no service. *)
Theorem Reconcile_touches_one_key r req σ key :
  wellKeyed σ ->
  key <> req ->
  let σ' := (Reconcile' r req σ).2 in
  World.Workloads σ' !! key = World.Workloads σ !! key /\
  World.Deployments σ' !! key = World.Deployments σ !! key /\
  World.Services σ' !! key = World.Services σ !! key.
Proof.
  intros Hwf Hne σ'. subst σ'.
  split_cycle r req σ; [done|..];
    destruct (Get_inr _ _ _ _ Hget) as [_ Hin];
    pose proof (Hwf _ _ Hin) as Hkey;
    try (destruct (renderDeployment_spec _ _ _ _ Hrd) as (_ & Hdn & Hdns & _);
         assert (Hkd : keyOf (Deployment.ObjectMeta deploy) = req)
           by (unfold keyOf in *; rewrite Hdn, Hdns; exact Hkey));
    try (destruct (renderService_spec _ _ _ _ Hrs) as (_ & _ & Hsn & Hsns & _);
         assert (Hks : keyOf (Service.ObjectMeta service) = req)
           by (unfold keyOf in *; rewrite Hsn, Hsns; exact Hkey));
    try (rewrite (Hother key)
          by (cbn [Containerized.setStatus Containerized.ObjectMeta]; congruence));
    try rewrite Hdep; try rewrite Hsvc;
    simpl_world; rewrite ?Hkd, ?Hks, ?Hkey; rewrite ?lookup_insert_ne by done.
  all: done.
Qed.

(** X8: the service is only ever patched after the deployment was:
    a cycle that sends a service patch has rendered the deployment, had
    its patch accepted, and left the accepted deployment in the store. *)
Theorem Reconcile_service_patch_after_deployment r req σ :
  existsb isServicePatch (sentBetween σ (Reconcile' r req σ).2) = true ->
  exists workload deploy deploy',
    Get (Client r) req σ = inr workload /\
    renderDeployment' r workload = inr deploy /\
    Client.PatchDeploymentReply (Client r) deploy = inr deploy' /\
    World.Deployments (Reconcile' r req σ).2 !! keyOf (Deployment.ObjectMeta deploy)
      = Some deploy'.
Proof.
  unfold sentBetween. split_cycle r req σ;
    try rewrite Hreq; try rewrite Hdep; simpl_world;
    rewrite <- ?app_assoc, ?drop_app_length, ?drop_all; try discriminate;
    intros _; exists workload, deploy, deploy';
    (repeat split; [done..|]); apply lookup_insert_eq.
Qed.

(** X9: provided the requeue outcome differs from the empty result, a
    cycle returns the empty result only when the read failed (the
    workload is gone, or the store could not be read) or when both
    children were applied and the status update was sent and accepted:
    the server raised no fault on it, and the store holds the references
    to the two applied children under the workload's key. *)
Theorem Reconcile_empty_result_only_when_done r req σ :
  ReconcileWaitResult <> Result.empty ->
  (Reconcile' r req σ).1.1 = Result.empty ->
  (exists err, Get (Client r) req σ = inl err) \/
  (exists workload deploy deploy' service service',
      Get (Client r) req σ = inr workload /\
      renderDeployment' r workload = inr deploy /\
      Client.PatchDeploymentReply (Client r) deploy = inr deploy' /\
      renderService' r workload = inr service /\
      Client.PatchServiceReply (Client r) service = inr service' /\
      existsb isStatusUpdate (sentBetween σ (Reconcile' r req σ).2) = true /\
      Client.StatusUpdateFault (Client r) = None /\
      resourcesOf (Reconcile' r req σ).2 (keyOf (Containerized.ObjectMeta workload)) =
        Some (Some [ typedReference (Deployment.TypeMeta deploy')
                       (Deployment.ObjectMeta deploy');
                     typedReference (Service.TypeMeta service')
                       (Service.ObjectMeta service') ])).
Proof.
  intros Hwait. unfold sentBetween. split_cycle r req σ; simpl_world;
    try (intros Hempty; by destruct Hwait).
  - intros _. left. by eexists.
  - intros _. right. exists workload, deploy, deploy', service, service'.
    rewrite Hreq, Hres. simpl_world. rewrite <- !app_assoc, drop_app_length.
    repeat split; try done.
    unfold resourcesOf. simpl_world. by rewrite lookup_insert_eq.
Qed.

(** X15: a cycle records at most one warning.  When it records one, it
    asks to be requeued, it sends no status update, and the last request
    it sends is a condition patch. *)
Theorem Reconcile_at_most_one_warning r req σ :
  let σ' := (Reconcile' r req σ).2 in
  List.filter isWarning (recordedBetween σ σ') = [] \/
  exists warning,
    List.filter isWarning (recordedBetween σ σ') = [warning] /\
    (Reconcile' r req σ).1.1 = ReconcileWaitResult /\
    existsb isStatusUpdate (sentBetween σ σ') = false /\
    isStatusPatch <$> last (sentBetween σ σ') = Some true.
Proof.
  intros σ'. subst σ'. unfold recordedBetween, sentBetween. split_cycle r req σ;
    try rewrite Hev; try rewrite Hreq; simpl_world;
    rewrite <- ?app_assoc, ?drop_app_length, ?drop_all;
    first [ by left | right; eexists; by repeat split ].
Qed.

(** *** Reconciling twice *)

(** A renderer looks at what was declared of the workload only, as
    long as the binder does. *)
Lemma render_ignores_status r workload status :
  (forall child,
      SetControllerReference (Containerized.setStatus status workload) child (Scheme_ r)
      = SetControllerReference workload child (Scheme_ r)) ->
  renderDeployment' r (Containerized.setStatus status workload)
    = renderDeployment' r workload /\
  renderService' r (Containerized.setStatus status workload)
    = renderService' r workload.
Proof.
  intros Hbind. unfold renderDeployment, renderService. cbv zeta.
  split.
  - rewrite Hbind. reflexivity.
  - cbn [Containerized.setStatus Containerized.Spec Containerized.GetName
         Containerized.GetNamespace Containerized.ObjectMeta].
    destruct (containersLoop _ _) as [built n]. rewrite Hbind. reflexivity.
Qed.

(** The store after a cycle in which every step succeeds. *)
Lemma Reconcile_success_store r req σ workload deploy deploy' service service' :
  wellKeyed σ ->
  Get (Client r) req σ = inr workload ->
  renderDeployment' r workload = inr deploy ->
  Client.PatchDeploymentReply (Client r) deploy = inr deploy' ->
  renderService' r workload = inr service ->
  Client.PatchServiceReply (Client r) service = inr service' ->
  Client.StatusUpdateFault (Client r) = None ->
  Client.StatusPatchFault (Client r) = None ->
  let σ' := (Reconcile' r req σ).2 in
  (Reconcile' r req σ).1 = (Result.empty, None) /\
  World.Workloads σ' =
    <[req := Containerized.setStatus
               {| ContainerizedStatus.Conditions :=
                    SetConditions ReconcileSuccess
                      (ContainerizedStatus.Conditions (Containerized.Status workload));
                  ContainerizedStatus.Resources :=
                    Some [ typedReference (Deployment.TypeMeta deploy')
                             (Deployment.ObjectMeta deploy');
                           typedReference (Service.TypeMeta service')
                             (Service.ObjectMeta service') ] |}
               workload]> (World.Workloads σ) /\
  World.Deployments σ' = <[req := deploy']> (World.Deployments σ) /\
  World.Services σ' = <[req := service']> (World.Services σ).
Proof.
  intros Hwf Hget Hrd Hpd Hrs Hps Hsu Hsp σ'. subst σ'.
  destruct (Get_inr _ _ _ _ Hget) as [_ Hstored].
  pose proof (Hwf _ _ Hstored) as Hkey.
  destruct (renderDeployment_spec _ _ _ _ Hrd) as (_ & Hdn & Hdns & _).
  destruct (renderService_spec _ _ _ _ Hrs) as (_ & _ & Hsn & Hsns & _).
  assert (Hkd : keyOf (Deployment.ObjectMeta deploy) = req)
    by (unfold keyOf in *; rewrite Hdn, Hdns; exact Hkey).
  assert (Hks : keyOf (Service.ObjectMeta service) = req)
    by (unfold keyOf in *; rewrite Hsn, Hsns; exact Hkey).
  unfold Reconcile, PatchDeployment, PatchService, StatusUpdate, PatchCondition.
  rewrite Hget, Hrd, Hpd, Hrs, Hps, Hsu. cbv zeta. rewrite Hsp.
  cbn [World.record World.send World.setDeployments World.setServices
       World.setWorkloads World.Workloads Containerized.setStatus
       Containerized.ObjectMeta Containerized.Status ContainerizedStatus.Conditions
       ContainerizedStatus.Resources].
  rewrite Hkey, Hkd, Hks, Hstored.
  cbn [World.record World.send World.setDeployments World.setServices
       World.setWorkloads World.Workloads World.Deployments World.Services].
  rewrite lookup_insert_eq.
  destruct (decide _) as [Hsame|Hchanged];
    cbn [fst snd World.setWorkloads World.Workloads World.Deployments World.Services
         World.send World.record Containerized.setStatus Containerized.TypeMeta
         Containerized.ObjectMeta Containerized.Spec Containerized.Status
         ContainerizedStatus.Resources].
  - rewrite Hsame. by repeat split.
  - rewrite insert_insert_eq. by repeat split.
Qed.

(** X16: reconciling again changes nothing.  After a cycle in which
    every step succeeds, a second cycle against the same server, with a
    binder that does not look at the owner's status, succeeds as well
    and leaves the stored workloads, deployments and services exactly as
    the first cycle left them. *)
Theorem Reconcile_twice_same_store r req σ workload deploy deploy' service service' :
  wellKeyed σ ->
  (forall status child,
      SetControllerReference (Containerized.setStatus status workload) child (Scheme_ r)
      = SetControllerReference workload child (Scheme_ r)) ->
  Get (Client r) req σ = inr workload ->
  renderDeployment' r workload = inr deploy ->
  Client.PatchDeploymentReply (Client r) deploy = inr deploy' ->
  renderService' r workload = inr service ->
  Client.PatchServiceReply (Client r) service = inr service' ->
  Client.StatusUpdateFault (Client r) = None ->
  Client.StatusPatchFault (Client r) = None ->
  let σ1 := (Reconcile' r req σ).2 in
  let σ2 := (Reconcile' r req σ1).2 in
  (Reconcile' r req σ1).1 = (Result.empty, None) /\
  World.Workloads σ2 = World.Workloads σ1 /\
  World.Deployments σ2 = World.Deployments σ1 /\
  World.Services σ2 = World.Services σ1.
Proof.
  intros Hwf Hbind Hget Hrd Hpd Hrs Hps Hsu Hsp σ1 σ2.
  destruct (Reconcile_success_store r req σ workload deploy deploy' service service')
    as (_ & Hw1 & Hd1 & Hs1); try done. fold σ1 in Hw1, Hd1, Hs1.
  destruct (Get_inr _ _ _ _ Hget) as [Hgf _].
  set (status1 :=
         {| ContainerizedStatus.Conditions :=
              SetConditions ReconcileSuccess
                (ContainerizedStatus.Conditions (Containerized.Status workload));
            ContainerizedStatus.Resources :=
              Some [ typedReference (Deployment.TypeMeta deploy')
                       (Deployment.ObjectMeta deploy');
                     typedReference (Service.TypeMeta service')
                       (Service.ObjectMeta service') ] |}) in *.
  assert (Hget1 : Get (Client r) req σ1 = inr (Containerized.setStatus status1 workload)).
  { unfold Get. by rewrite Hgf, Hw1, lookup_insert_eq. }
  destruct (render_ignores_status r workload status1 (Hbind status1)) as [Hrd1 Hrs1].
  rewrite Hrd in Hrd1. rewrite Hrs in Hrs1.
  destruct (Reconcile_success_store r req σ1 (Containerized.setStatus status1 workload)
              deploy deploy' service service')
    as (Hout & Hw2 & Hd2 & Hs2); try done.
  { by apply Reconcile_wellKeyed. }
  fold σ2 in Hw2, Hd2, Hs2.
  split; [exact Hout|].
  rewrite Hw2, Hd2, Hs2, Hw1, Hd1, Hs1, !insert_insert_eq.
  cbn [Containerized.setStatus Containerized.Status ContainerizedStatus.Conditions
       Containerized.TypeMeta Containerized.ObjectMeta Containerized.Spec status1].
  rewrite SetConditions_idempotent. by repeat split.
Qed.

End Cycle.


(** ** The further properties on the concrete runtime *)

Lemma rendered_selectors_match_pod_template_witness :
  exists deploy service,
    renderDeployment Sample.bind (Sample.reconciler Sample.healthy) Sample.relabelled
      = inr deploy /\
    renderService Sample.bind (Sample.reconciler Sample.healthy) Sample.relabelled
      = inr service /\
    ServiceSpec.Selector (Service.Spec service) ⊆
      ObjectMeta.Labels
        (PodTemplateSpec.ObjectMeta (DeploymentSpec.Template (Deployment.Spec deploy))).
Proof.
  eexists. eexists.
  edestruct (rendered_selectors_match_pod_template Sample.bind
               (Sample.reconciler Sample.healthy) Sample.relabelled)
    as (selector & _ & Hsub & Hsel); [reflexivity..|].
  split; [reflexivity|]. split; [reflexivity|].
  rewrite Hsel. exact Hsub.
Defined.

Lemma renderService_ports_distinct_witness :
  exists service ports,
    renderService Sample.bind (Sample.reconciler Sample.healthy) Sample.threePorts
      = inr service /\
    ServiceSpec.Ports (Service.Spec service) = Some ports /\
    NoDup (map ServicePort.Port ports).
Proof.
  eexists.
  edestruct (renderService_ports_distinct Sample.bind
               (Sample.reconciler Sample.healthy) Sample.threePorts)
    as (ports & Hports & Hdistinct); [reflexivity | vm_compute; discriminate |].
  exists ports. split; [reflexivity|]. split; [exact Hports | exact Hdistinct].
Defined.

Lemma renderService_port_numbers_range_witness :
  exists service ports,
    renderService Sample.bind (Sample.reconciler Sample.healthy) Sample.threePorts
      = inr service /\
    ServiceSpec.Ports (Service.Spec service) = Some ports /\
    forall sp, ports !! 2%nat = Some sp -> 8080 <= ServicePort.Port sp <= 65535.
Proof.
  eexists.
  edestruct (renderService_port_numbers_range Sample.bind
               (Sample.reconciler Sample.healthy) Sample.threePorts)
    as (ports & Hports & Hrange & _); [reflexivity|].
  exists ports. split; [reflexivity|]. split; [exact Hports|].
  intros sp Hsp. apply (Hrange 2%nat sp Hsp). lia.
Defined.

Lemma render_failure_is_binder_failure_witness :
  exists child,
    ObjectMeta.Name child = "web" /\
    ObjectMeta.Namespace child = "default" /\
    ObjectMeta.OwnerReferences child = [] /\
    Sample.bind Sample.unsaved child tt = inl (ErrorString "owner has no unique identifier").
Proof.
  apply (render_failure_is_binder_failure Sample.bind (Sample.reconciler Sample.healthy)
           Sample.unsaved (ErrorString "owner has no unique identifier")).
  left. reflexivity.
Defined.

Lemma render_succeeds_when_binder_accepts_witness :
  exists deploy service,
    renderDeployment Sample.bind (Sample.reconciler Sample.healthy) Sample.web = inr deploy /\
    renderService Sample.bind (Sample.reconciler Sample.healthy) Sample.web = inr service /\
    length (ObjectMeta.OwnerReferences (Deployment.ObjectMeta deploy)) = 1%nat /\
    length (ObjectMeta.OwnerReferences (Service.ObjectMeta service)) = 1%nat.
Proof.
  edestruct (render_succeeds_when_binder_accepts Sample.bind
               (Sample.reconciler Sample.healthy) Sample.web)
    as (deploy & service & Hrd & Hrs & Hdrefs & Hsrefs).
  { intros child _ Hns. unfold Sample.bind.
    change (Containerized.GetUID Sample.web) with "uid-web".
    rewrite bool_decide_eq_false_2 by discriminate.
    rewrite bool_decide_eq_true_2 by (symmetry; exact Hns).
    eexists. reflexivity. }
  exists deploy, service. split; [exact Hrd|]. split; [exact Hrs|].
  injection Hrd as <-. injection Hrs as <-. split; reflexivity.
Defined.

Lemma Reconcile_get_failure_witness :
  Sample.run Sample.getDown [Sample.web] ("default", "web")
    = ((Result.empty, Some (ErrorString "connection refused")), Sample.world [Sample.web]).
Proof.
  apply (Reconcile_get_failure Sample.bind Sample.noParent Sample.waitResult
           Sample.errUpdateStatus (Sample.reconciler Sample.getDown)); reflexivity.
Defined.

Lemma Reconcile_deployment_apply_failure_witness :
  let σ := Sample.world [Sample.web] in
  let out := Sample.run Sample.deploymentDown [Sample.web] ("default", "web") in
  out.1.1 = Sample.waitResult /\
  existsb isServicePatch (sentBetween σ out.2) = false /\
  World.Deployments out.2 = ∅ /\ World.Services out.2 = ∅.
Proof.
  intros σ out.
  edestruct (Reconcile_deployment_apply_failure Sample.bind Sample.noParent
               Sample.waitResult Sample.errUpdateStatus
               (Sample.reconciler Sample.deploymentDown) ("default", "web") σ)
    as (Hout & _ & Hsent & Hdep & Hsvc); [reflexivity..|].
  split; [exact Hout|]. split; [|split; [exact Hdep | exact Hsvc]].
  unfold out, Sample.run. fold σ. rewrite Hsent. reflexivity.
Defined.

Lemma Reconcile_status_update_failure_witness :
  let σ := Sample.world [Sample.webApplied] in
  let out := Sample.run Sample.statusDown [Sample.webApplied] ("default", "web") in
  out.1 = (Sample.waitResult,
           Some (StatusError "Conflict" "the object has been modified")) /\
  World.Workloads out.2 = World.Workloads σ /\
  existsb isStatusPatch (sentBetween σ out.2) = false.
Proof.
  intros σ out.
  edestruct (Reconcile_status_update_failure Sample.bind Sample.noParent
               Sample.waitResult Sample.errUpdateStatus
               (Sample.reconciler Sample.statusDown) ("default", "web") σ)
    as (Hout & _ & Hpatch & Hsame & _); [reflexivity..|].
  split; [exact Hout|]. split; [exact Hsame | exact Hpatch].
Defined.

Lemma Reconcile_success_trace_witness :
  let σ := Sample.world [Sample.web] in
  let σ' := (Sample.run Sample.healthy [Sample.web] ("default", "web")).2 in
  map (fun oe => Event.Reason oe.2) (recordedOn σ σ')
    = ["Deployment created"; "Service created"] /\
  map fieldOwnerOf (sentBetween σ σ') = [Some "uid-web"; Some "uid-web"; None; None].
Proof.
  intros σ σ'.
  edestruct (Reconcile_success_trace Sample.bind Sample.noParent
               Sample.waitResult Sample.errUpdateStatus
               (Sample.reconciler Sample.healthy) ("default", "web") σ)
    as (Hevents & updated & _ & Hsent);
    [apply Sample_world_wellKeyed | reflexivity..|].
  unfold σ', Sample.run. fold σ. rewrite Hevents, Hsent. split; reflexivity.
Defined.

Lemma Reconcile_events_on_one_target_witness :
  let σ := Sample.world [Sample.web] in
  let σ' := (Reconcile Sample.bind Sample.shopParent Sample.waitResult
               Sample.errUpdateStatus (Sample.reconciler Sample.healthy)
               ("default", "web") σ).2 in
  Forall (fun oe => oe.1 = ParentAppConfig Sample.shop) (recordedOn σ σ') /\
  length (recordedOn σ σ') = 2%nat.
Proof.
  intros σ σ'. split; [|reflexivity].
  apply (Reconcile_events_on_one_target Sample.bind Sample.shopParent Sample.waitResult
           Sample.errUpdateStatus (Sample.reconciler Sample.healthy) ("default", "web") σ
           Sample.web).
  reflexivity.
Defined.

Lemma Reconcile_touches_one_key_witness :
  let σ' := (Sample.run Sample.healthy [Sample.web; Sample.idle] ("default", "web")).2 in
  World.Workloads σ' !! ("default", "idle") = Some Sample.idle /\
  World.Deployments σ' !! ("default", "idle") = None /\
  World.Services σ' !! ("default", "idle") = None.
Proof.
  intros σ'.
  edestruct (Reconcile_touches_one_key Sample.bind Sample.noParent
               Sample.waitResult Sample.errUpdateStatus
               (Sample.reconciler Sample.healthy) ("default", "web")
               (Sample.world [Sample.web; Sample.idle]) ("default", "idle"))
    as (Hw & Hd & Hs); [apply Sample_world_wellKeyed | discriminate |].
  split; [|split].
  - etransitivity; [exact Hw | reflexivity].
  - etransitivity; [exact Hd | reflexivity].
  - etransitivity; [exact Hs | reflexivity].
Defined.

Lemma Reconcile_service_patch_after_deployment_witness :
  let σ' := (Sample.run Sample.serviceDown [Sample.web] ("default", "web")).2 in
  exists deploy deploy',
    renderDeployment Sample.bind (Sample.reconciler Sample.serviceDown) Sample.web
      = inr deploy /\
    Sample.storeDeployment deploy = inr deploy' /\
    World.Deployments σ' !! keyOf (Deployment.ObjectMeta deploy) = Some deploy'.
Proof.
  intros σ'.
  edestruct (Reconcile_service_patch_after_deployment Sample.bind Sample.noParent
               Sample.waitResult Sample.errUpdateStatus
               (Sample.reconciler Sample.serviceDown) ("default", "web")
               (Sample.world [Sample.web]))
    as (workload & deploy & deploy' & Hget & Hrd & Hpd & Hstored); [reflexivity|].
  injection Hget as <-. exists deploy, deploy'.
  split; [exact Hrd|]. split; [exact Hpd | exact Hstored].
Defined.

Lemma Reconcile_empty_result_only_when_done_witness :
  let σ := Sample.world [Sample.webApplied] in
  let out := Sample.run Sample.healthy [Sample.webApplied] ("default", "web") in
  out.1.1 = Result.empty /\
  existsb isStatusUpdate (sentBetween σ out.2) = true /\
  (fun s => length (range s)) <$> resourcesOf σ ("default", "web") = Some 3%nat /\
  (fun s => length (range s)) <$> resourcesOf out.2 ("default", "web") = Some 2%nat.
Proof.
  intros σ out. split; [reflexivity|].
  edestruct (Reconcile_empty_result_only_when_done Sample.bind Sample.noParent
               Sample.waitResult Sample.errUpdateStatus
               (Sample.reconciler Sample.healthy) ("default", "web") σ)
    as [(err & Hget)
       | (w & d & d' & s & s' & Hget & _ & _ & _ & _ & Hsent & _ & Hstored)];
    [discriminate | reflexivity | discriminate Hget |].
  injection Hget as <-.
  split; [exact Hsent|]. split; [reflexivity|].
  exact (f_equal (fmap (fun s : slice TypedReference.t => length (range s))) Hstored).
Defined.

Lemma Reconcile_twice_same_store_witness :
  let σ1 := (Sample.run Sample.healthy [Sample.web] ("default", "web")).2 in
  let out := Reconcile Sample.bind Sample.noParent Sample.waitResult
               Sample.errUpdateStatus (Sample.reconciler Sample.healthy)
               ("default", "web") σ1 in
  out.1 = (Result.empty, None) /\
  World.Workloads out.2 = World.Workloads σ1 /\
  World.Deployments out.2 = World.Deployments σ1 /\
  World.Services out.2 = World.Services σ1.
Proof.
  intros σ1 out.
  eapply (Reconcile_twice_same_store Sample.bind Sample.noParent Sample.waitResult
            Sample.errUpdateStatus (Sample.reconciler Sample.healthy) ("default", "web")
            (Sample.world [Sample.web]) Sample.web);
    first [ apply Sample_world_wellKeyed | reflexivity ].
Defined.
